(** * download_dataset.py: manifest resolution, download worker and report

    A shallow embedding of [src/download_dataset.py] and the properties of
    its resolver ([read_url_map], [split_from_manifest], [collect_tasks]),
    of its worker ([get_remote_size], [download_task]) and of [main].

    Conventions of the model.
    - A Python [str] is a Rocq [string]: the bytes of its UTF-8 encoding.
      [lower] and [strip] act on the ASCII range only (case mapping and
      white space of non-ASCII code points are outside the model).
    - Paths are POSIX paths ([posixpath]); a path is an opaque key of the
      file store, no normalisation of [//], [.] or [..] is done.
    - The manifests are read from a directory tree ([node]) that holds the
      decoded text of the files; the worker and the report act on a flat
      file store ([gmap string fnode]). The downloads do not change the
      manifests.
    - The network is an environment ([env]): what a HEAD and a GET on a URL
      answer. Python exceptions are values ([exn]); code that can raise is
      written in a state-and-exception monad ([M]).
    - The thread pool is modelled by running the submitted tasks one after
      the other in submission order (what [--threads 1] does). *)

From Stdlib Require Import ZArith Ascii String List Lia Bool DecimalString.
From stdpp Require Import base option list strings sorting gmap fin_maps.

Local Open Scope Z_scope.

(** * The program *)

(** ** Python [str] operations used by the program *)

Module PyStr.

Definition nl : ascii := "010"%char.
Definition cr : ascii := "013"%char.
Definition tab : ascii := "009"%char.

(** [str.isspace] on the ASCII range: TAB, LF, VT, FF, CR, FS, GS, RS, US
    and the space. *)
Definition is_space (c : ascii) : bool :=
  match c with
  | "009" | "010" | "011" | "012" | "013"
  | "028" | "029" | "030" | "031" | " " => true
  | _ => false
  end%char.

Definition is_empty (s : string) : bool :=
  match s with "" => true | _ => false end.

Fixpoint lstrip (s : string) : string :=
  match s with
  | "" => ""
  | String c r => if is_space c then lstrip r else s
  end.

Fixpoint rstrip (s : string) : string :=
  match s with
  | "" => ""
  | String c r =>
      let r' := rstrip r in
      if is_empty r' && is_space c then "" else String c r'
  end.

(** [s.strip()] *)
Definition strip (s : string) : string := rstrip (lstrip s).

(** [c.lower()] for one ASCII character: [A]..[Z] are shifted by 32. *)
Definition lower_char (c : ascii) : ascii :=
  let n := N_of_ascii c in
  if ((65 <=? n) && (n <=? 90))%N then ascii_of_N (n + 32) else c.

(** [s.lower()] *)
Fixpoint lower (s : string) : string :=
  match s with
  | "" => ""
  | String c r => String (lower_char c) (lower r)
  end.

(** [s.startswith(p)] *)
Fixpoint startswith (p s : string) : bool :=
  match p, s with
  | "", _ => true
  | String a p', String b s' => if Ascii.eqb a b then startswith p' s' else false
  | String _ _, "" => false
  end.

(** [needle in s] *)
Fixpoint contains (needle s : string) : bool :=
  startswith needle s ||
  match s with
  | "" => false
  | String _ r => contains needle r
  end.

(** [s.endswith(p)] *)
Fixpoint endswith (p s : string) : bool :=
  match s with
  | "" => is_empty p
  | String _ r => String.eqb p s || endswith p r
  end.

(** [s.split(sep, 1)[0]]: what stands before the first [sep], the whole
    string when there is none. *)
Fixpoint before_first (sep : ascii) (s : string) : string :=
  match s with
  | "" => ""
  | String c r => if Ascii.eqb c sep then "" else String c (before_first sep r)
  end.

(** [s.rsplit(sep, 1)[-1]]: what stands after the last [sep], the whole
    string when there is none. *)
Fixpoint after_last (sep : ascii) (s : string) : string :=
  match s with
  | "" => ""
  | String c r =>
      if contains (String sep "") r then after_last sep r
      else if Ascii.eqb c sep then r else s
  end.

(** [s.replace(c, "")] for a one-character [c]. *)
Fixpoint remove_char (x : ascii) (s : string) : string :=
  match s with
  | "" => ""
  | String c r => if Ascii.eqb c x then remove_char x r else String c (remove_char x r)
  end.

(** Iterating over a file opened in text mode (universal newlines): the
    lines of the content, each ended by LF, where CR LF and a lone CR
    count as one line end; a last line without line end is kept as it
    is. [cur] is the current line, reversed. *)
Fixpoint text_lines_go (cur : string) (s : string) : list string :=
  match s with
  | "" => if is_empty cur then [] else [String.rev cur]
  | String c r =>
      if Ascii.eqb c nl then
        String.rev (String nl cur) :: text_lines_go "" r
      else if Ascii.eqb c cr then
        String.rev (String nl cur) ::
          match r with
          | String c' r' =>
              if Ascii.eqb c' nl then text_lines_go "" r'
              else text_lines_go "" r
          | "" => text_lines_go "" r
          end
      else text_lines_go (String c cur) r
  end.

Definition text_lines (content : string) : list string :=
  text_lines_go "" content.

(** [str(n)] for an [int]. *)
Definition str_of_Z (n : Z) : string := NilZero.string_of_int (Z.to_int n).

Definition digit_of (c : ascii) : option Z :=
  let n := N_of_ascii c in
  if ((48 <=? n) && (n <=? 57))%N then Some (Z.of_N (n - 48)) else None.

(** The digits of a decimal literal, where one underscore may stand
    between two digits. [acc] is the value read so far; [prev] tells
    whether the previous character was a digit. *)
Fixpoint int_digits (acc : Z) (prev : bool) (s : string) : option Z :=
  match s with
  | "" => if prev then Some acc else None
  | String c r =>
      match digit_of c with
      | Some d => int_digits (10 * acc + d) true r
      | None =>
          if Ascii.eqb c "_" && prev then
            match r with
            | "" => None
            | String c' _ =>
                match digit_of c' with
                | Some _ => int_digits acc false r
                | None => None
                end
            end
          else None
      end
  end.

(** [int(s)]: [None] stands for [ValueError]. White space around the
    literal and a sign are accepted (the limit recent Python versions put
    on the number of digits is not modelled). *)
Definition int_of_str (s : string) : option Z :=
  match strip s with
  | String "-" r => Z.opp <$> int_digits 0 false r
  | String "+" r => int_digits 0 false r
  | r => int_digits 0 false r
  end.

End PyStr.

(** ** [posixpath] *)

Module PosixPath.
Import PyStr.

(** [os.path.join(a, b)] *)
Definition join (a b : string) : string :=
  if startswith "/" b then b
  else if is_empty a || endswith "/" a then a +:+ b
  else a +:+ "/" +:+ b.

(** [p[:p.rfind("/") + 1]] *)
Fixpoint head_upto_slash (p : string) : string :=
  match p with
  | "" => ""
  | String c r =>
      let h := head_upto_slash r in
      if negb (is_empty h) then String c h
      else if Ascii.eqb c "/" then "/" else ""
  end.

Fixpoint all_slashes (s : string) : bool :=
  match s with
  | "" => true
  | String c r => Ascii.eqb c "/" && all_slashes r
  end.

(** [s.rstrip("/")] *)
Fixpoint rstrip_slash (s : string) : string :=
  match s with
  | "" => ""
  | String c r =>
      let r' := rstrip_slash r in
      if is_empty r' && Ascii.eqb c "/" then "" else String c r'
  end.

(** [os.path.dirname(p)] *)
Definition dirname (p : string) : string :=
  let head := head_upto_slash p in
  if negb (is_empty head) && negb (all_slashes head) then rstrip_slash head
  else head.

End PosixPath.

(** ** Python exceptions and results *)

(** The exception classes the program can meet, with the class each one
    derives from: the built-in hierarchy, [urllib.error] and
    [http.client]. *)
Inductive exn_class :=
| Exception | ValueError | HTTPException
| OSError | TimeoutError | ConnectionError
| FileNotFoundError | FileExistsError | IsADirectoryError | NotADirectoryError
| URLError | HTTPError.

Global Instance exn_class_eq_dec : EqDecision exn_class.
Proof. solve_decision. Defined.

Definition base_class (c : exn_class) : option exn_class :=
  match c with
  | Exception => None
  | ValueError | HTTPException | OSError => Some Exception
  | TimeoutError | ConnectionError | FileNotFoundError | FileExistsError
  | IsADirectoryError | NotADirectoryError | URLError => Some OSError
  | HTTPError => Some URLError
  end.

Fixpoint issubclass_upto (depth : nat) (c d : exn_class) : bool :=
  bool_decide (c = d) ||
  match depth, base_class c with
  | S k, Some b => issubclass_upto k b d
  | _, _ => false
  end.

(** [issubclass(c, d)]; the hierarchy is three levels deep. [IOError] is
    an alias of [OSError]. *)
Definition issubclass (c d : exn_class) : bool := issubclass_upto 3 c d.

(** An exception: its class and [str(exc)]. *)
Record exn := Exn { exn_type : exn_class; exn_str : string }.

Definition isinstance (e : exn) (c : exn_class) : bool := issubclass (exn_type e) c.
Global Arguments isinstance : simpl never.

(** [except (c1, c2, ...)] *)
Definition caught_by (classes : list exn_class) (e : exn) : bool :=
  existsb (isinstance e) classes.

Inductive result (A : Type) :=
| Ok (a : A)
| Raise (e : exn).
Arguments Ok {A} a.
Arguments Raise {A} e.

(** [OSError(errno, strerror, filename)] as the file system calls raise
    it; [str] quotes the file name (a name without quote or escape). *)
Definition os_error (c : exn_class) (errno : Z) (strerror path : string) : exn :=
  Exn c ("[Errno " +:+ PyStr.str_of_Z errno +:+ "] " +:+ strerror +:+ ": '" +:+ path +:+ "'").

Definition is_a_directory (path : string) : exn :=
  os_error IsADirectoryError 21 "Is a directory" path.
Definition not_a_directory (path : string) : exn :=
  os_error NotADirectoryError 20 "Not a directory" path.
Definition file_exists (path : string) : exn :=
  os_error FileExistsError 17 "File exists" path.
Definition no_such_file (path : string) : exn :=
  os_error FileNotFoundError 2 "No such file or directory" path.

(** [OSError(errno, strerror, filename, None, filename2)], as [os.replace]
    raises it. *)
Definition rename_error (c : exn_class) (errno : Z) (strerror src dst : string) : exn :=
  Exn c ("[Errno " +:+ PyStr.str_of_Z errno +:+ "] " +:+ strerror
         +:+ ": '" +:+ src +:+ "' -> '" +:+ dst +:+ "'").

(** ** The manifest resolver *)

Module Resolver.
Import PyStr PosixPath.

(** The directory tree under the source root, as [os.listdir] lists it:
    the entries of a directory in listing order. *)
#[warnings="-register-all"]
Inductive node :=
| File (content : string)
| Dir (entries : list (string * node)).

Definition listdir (n : node) : list string :=
  match n with
  | Dir es => es.*1
  | File _ => []
  end.

Fixpoint assoc (name : string) (es : list (string * node)) : option node :=
  match es with
  | [] => None
  | (k, n) :: r => if String.eqb k name then Some n else assoc name r
  end.

(** The entry [name] of directory [n]. *)
Definition child (n : node) (name : string) : option node :=
  match n with
  | Dir es => assoc name es
  | File _ => None
  end.

Definition isdir (n : option node) : bool :=
  match n with
  | Some (Dir _) => true
  | _ => false
  end.

(** [open(path, "r")] then reading the text: a directory cannot be
    opened. *)
Definition open_read (path : string) (n : option node) : result string :=
  match n with
  | Some (File c) => Ok c
  | Some (Dir _) => Raise (is_a_directory path)
  | None => Raise (no_such_file path)
  end.

(** [sorted(names)] *)
Definition sorted (names : list string) : list string :=
  merge_sort String.le names.

Record task := Task {
  region : string;
  url : string;
  output_path : string
}.

Global Instance task_eq_dec : EqDecision task.
Proof. solve_decision. Defined.

(** One line of the URL list (lines 48-52). *)
Definition url_map_line (url_map : gmap string string) (line : string)
  : gmap string string :=
  let url := strip line in
  if is_empty url then url_map
  else
    let filename := after_last "/" url in
    <[filename := url]> url_map.

(** [read_url_map], on the text of the file. *)
Definition read_url_map (content : string) : gmap string string :=
  fold_left url_map_line (text_lines content) ∅.

Definition split_from_manifest (filename : string) : option string :=
  let lowered := lower filename in
  if contains "train" lowered then Some "train"
  else if contains "val" lowered then Some "val"
  else if contains "test" lowered then Some "test"
  else None.

(** [tasks] and [missing_urls], the two lists [collect_tasks] appends to. *)
Definition acc : Type := list task * list (string * string).

(** The body of the loop over the lines of a manifest (lines 99-117). *)
Definition resolve_line (output_root dtype region split : string)
    (url_map : gmap string string) (a : acc) (raw : string) : acc :=
  let line := strip raw in
  if is_empty line then a
  else
    let tile_name := before_first "," line in
    let url := url_map !! tile_name in
    let region_prefix := remove_char "." region in
    let output_name := region_prefix +:+ "_" +:+ tile_name in
    let output_dir := join (join output_root split) dtype in
    let output_path := join output_dir output_name in
    match url with
    | None => (a.1, a.2 ++ [(region, tile_name)])
    | Some u => (a.1 ++ [Task region u output_path], a.2)
    end.

(** The loop over the lines of one opened manifest (lines 97-117). *)
Definition resolve_manifest (output_root dtype region split : string)
    (url_map : gmap string string) (a : acc) (content : string) : acc :=
  fold_left (resolve_line output_root dtype region split url_map)
            (text_lines content) a.

(** The loop over [manifest_files] (lines 92-117). *)
Fixpoint resolve_manifests (output_root dtype region region_dir : string)
    (rn : node) (url_map : gmap string string)
    (manifest_files : list string) (a : acc) : result acc :=
  match manifest_files with
  | [] => Ok a
  | manifest :: rest =>
      match split_from_manifest manifest with
      | None => resolve_manifests output_root dtype region region_dir rn url_map rest a
      | Some split =>
          let manifest_path := join region_dir manifest in
          match open_read manifest_path (child rn manifest) with
          | Raise e => Raise e
          | Ok content =>
              resolve_manifests output_root dtype region region_dir rn url_map rest
                (resolve_manifest output_root dtype region split url_map a content)
          end
      end
  end.

(** The body of the loop over the regions (lines 75-117). *)
Definition resolve_region (output_root dtype base_dir : string)
    (base : node) (a : acc) (region : string) : result acc :=
  let region_dir := join base_dir region in
  match child base region with
  | Some (Dir es as rn) =>
      let csv_files := filter (λ entry, endswith ".csv" (lower entry)) (listdir rn) in
      match csv_files with
      | [] => Ok a
      | csv :: _ =>
          let csv_path := join region_dir csv in
          match open_read csv_path (child rn csv) with
          | Raise e => Raise e
          | Ok content =>
              let url_map := read_url_map content in
              let manifest_files :=
                filter (λ entry, endswith ".txt" (lower entry)) (listdir rn) in
              resolve_manifests output_root dtype region region_dir rn url_map
                                manifest_files a
          end
      end
  | _ => Ok a
  end.

(** The loop over the sorted regions of one type root (line 74). *)
Fixpoint resolve_regions (output_root dtype base_dir : string)
    (base : node) (regions : list string) (a : acc) : result acc :=
  match regions with
  | [] => Ok a
  | region :: rest =>
      match resolve_region output_root dtype base_dir base a region with
      | Raise e => Raise e
      | Ok a' => resolve_regions output_root dtype base_dir base rest a'
      end
  end.

(** The body of the loop over the two type roots (lines 71-117). *)
Definition resolve_type (source_root output_root : string) (src : node)
    (a : acc) (folder_name dtype : string) : result acc :=
  let base_dir := join source_root folder_name in
  match child src folder_name with
  | Some (Dir _ as base) =>
      resolve_regions output_root dtype base_dir base (sorted (listdir base)) a
  | _ => Ok a
  end.

(** [collect_tasks(source_root, output_root)], where [src] is the
    directory tree at [source_root]. *)
Definition collect_tasks (source_root output_root : string) (src : node)
  : result acc :=
  match resolve_type source_root output_root src ([], []) "DSMs" "dsm" with
  | Raise e => Raise e
  | Ok a => resolve_type source_root output_root src a "DTMs" "dtm"
  end.

End Resolver.

(** ** The world of the worker: file store, network, failures *)

Module Worker.
Import PyStr PosixPath.
Export Resolver.

(** An entry of the file store: a regular file with its bytes, or a
    directory. *)
Inductive fnode :=
| FFile (data : string)
| FDir.

Global Instance fnode_eq_dec : EqDecision fnode.
Proof. solve_decision. Defined.

(** What the server sends for a GET: the bytes that arrive and, when the
    transfer breaks, the exception [read] raises after them. *)
Record response := Response {
  resp_body : string;
  resp_fault : option exn
}.

(** The remote side and the platform.
    - [http_head u]: the [Content-Length] header of the answer to a HEAD
      request ([None] when the header is absent), or the exception
      [Request] or [urlopen] raises;
    - [http_get u]: the answer to a GET request, or the exception
      [urlopen] raises;
    - [dir_size]: the [st_size] the platform reports for a directory. *)
Record env := Env {
  http_head : string → result (option string);
  http_get : string → result response;
  dir_size : Z
}.

(** A failure record: region, identifier, reason. *)
Definition failure : Type := string * string * string.

(** The mutable state of a run: the file store, the GET requests issued so
    far (a trace, for counting transfers), the shared [failures] list and
    what was printed. *)
Record state := State {
  fs : gmap string fnode;
  requests : list string;
  failures : list failure;
  stdout : list string
}.

Definition set_fs (f : gmap string fnode → gmap string fnode) (s : state) : state :=
  State (f (fs s)) (requests s) (failures s) (stdout s).
Definition add_request (u : string) (s : state) : state :=
  State (fs s) (requests s ++ [u]) (failures s) (stdout s).
Definition set_failures (f : list failure → list failure) (s : state) : state :=
  State (fs s) (requests s) (f (failures s)) (stdout s).
Definition add_stdout (l : string) (s : state) : state :=
  State (fs s) (requests s) (failures s) (stdout s ++ [l]).

(** Code that reads and writes the state and may raise. An exception
    keeps the state reached when it was raised. *)
Definition M (A : Type) : Type := state → result A * state.

Global Instance M_ret : MRet M := λ A a s, (Ok a, s).
Global Instance M_bind : MBind M := λ A B f m s,
  match m s with
  | (Ok a, s') => f a s'
  | (Raise e, s') => (Raise e, s')
  end.

Definition raise {A} (e : exn) : M A := λ s, (Raise e, s).

(** [try: m except classes as exc: handler exc] *)
Definition try_except {A} (m : M A) (classes : list exn_class)
    (handler : exn → M A) : M A := λ s,
  match m s with
  | (Ok a, s') => (Ok a, s')
  | (Raise e, s') => if caught_by classes e then handler e s' else (Raise e, s')
  end.

(** *** File system calls *)

Definition os_path_exists (path : string) : M bool := λ s,
  (Ok (bool_decide (is_Some (fs s !! path))), s).

Definition os_path_getsize (ev : env) (path : string) : M Z := λ s,
  match fs s !! path with
  | Some (FFile data) => (Ok (Z.of_nat (String.length data)), s)
  | Some FDir => (Ok (dir_size ev), s)
  | None => (Raise (no_such_file path), s)
  end.

Definition os_remove (path : string) : M unit := λ s,
  match fs s !! path with
  | Some (FFile _) => (Ok (), set_fs (delete path) s)
  | Some FDir => (Raise (is_a_directory path), s)
  | None => (Raise (no_such_file path), s)
  end.

(** [os.makedirs(name, exist_ok=True)] on the file store: an existing
    directory is accepted, a missing parent is created first, a regular
    file in the way is an error. Without fuel left the parent is not
    created and [mkdir] fails on it; [String.length name] is always
    enough, since a parent is shorter than its child (see
    [makedirs_go_fuel_enough]). *)
Fixpoint makedirs_go (fuel : nat) (name : string) (m : gmap string fnode)
  : result (gmap string fnode) :=
  match m !! name with
  | Some FDir => Ok m
  | Some (FFile _) => Raise (file_exists name)
  | None =>
      let head := dirname name in
      if is_empty name then Raise (no_such_file name)
      else if is_empty head || String.eqb head name then Ok (<[name := FDir]> m)
      else
        match m !! head with
        | Some FDir => Ok (<[name := FDir]> m)
        | Some (FFile _) => Raise (not_a_directory name)
        | None =>
            match fuel with
            | O => Raise (no_such_file name)
            | S k =>
                match makedirs_go k head m with
                | Ok m' => Ok (<[name := FDir]> m')
                | Raise e => Raise e
                end
            end
        end
  end.

Definition os_makedirs (name : string) : M unit := λ s,
  match makedirs_go (String.length name) name (fs s) with
  | Ok m' => (Ok (), set_fs (λ _, m') s)
  | Raise e => (Raise e, s)
  end.

(** [open(path, "wb")] (and ["w"]): the file is created or emptied; its
    directory has to exist (the empty directory name is the current
    directory). *)
Definition open_w (path : string) : M unit := λ s,
  match fs s !! path with
  | Some FDir => (Raise (is_a_directory path), s)
  | _ =>
      let parent := dirname path in
      if is_empty parent then (Ok (), set_fs <[path := FFile ""]> s)
      else
        match fs s !! parent with
        | Some FDir => (Ok (), set_fs <[path := FFile ""]> s)
        | Some (FFile _) => (Raise (not_a_directory path), s)
        | None => (Raise (no_such_file path), s)
        end
  end.

Definition append_data (chunk : string) (n : fnode) : fnode :=
  match n with
  | FFile data => FFile (data +:+ chunk)
  | FDir => FDir
  end.

(** [handle.write(chunk)] on a handle opened on [path]; nothing else
    writes or removes the file in between. *)
Definition handle_write (path chunk : string) : M unit := λ s,
  (Ok (), set_fs (alter (append_data chunk) path) s).

(** [os.replace(src, dst)] for a regular file [src]: [dst] is replaced
    unless it is a directory. The program renames its staging file only;
    a directory [src] is refused here. *)
Definition os_replace (src dst : string) : M unit := λ s,
  match fs s !! src with
  | Some (FFile data) =>
      match fs s !! dst with
      | Some FDir =>
          (Raise (rename_error IsADirectoryError 21 "Is a directory" src dst), s)
      | _ => (Ok (), set_fs (λ m, <[dst := FFile data]> (delete src m)) s)
      end
  | Some FDir =>
      (Raise (rename_error NotADirectoryError 20 "Not a directory" src dst), s)
  | None =>
      (Raise (rename_error FileNotFoundError 2 "No such file or directory" src dst), s)
  end.

(** *** Network calls *)

(** [urlopen(Request(url, method="HEAD"), timeout=30)] and reading the
    [Content-Length] header of the response. *)
Definition urlopen_head (ev : env) (url : string) : M (option string) := λ s,
  (http_head ev url, s).

(** [urlopen(url, timeout=60)] *)
Definition urlopen_get (ev : env) (url : string) : M response := λ s,
  (http_get ev url, add_request url s).

Definition CHUNK_SIZE : N := 1024 * 1024.

(** The non-empty chunks successive [response.read(amt)] calls return for
    a body: [amt] bytes each, fewer for the last one. [k] bytes of the
    current chunk, [cur] reversed, are already taken. *)
Fixpoint chunks_go (amt k : N) (cur body : string) : list string :=
  match body with
  | "" => if is_empty cur then [] else [String.rev cur]
  | String b r =>
      if (k + 1 =? amt)%N then String.rev (String b cur) :: chunks_go amt 0 "" r
      else chunks_go amt (k + 1) (String b cur) r
  end.

Definition read_chunks (amt : N) (r : response) : list string :=
  chunks_go amt 0 "" (resp_body r).

(** *** The program *)

Definition get_remote_size (ev : env) (url : string) : M (option Z) :=
  length ← urlopen_head ev url;
  match length with
  | None => mret None
  | Some l =>
      match int_of_str l with
      | Some n => mret (Some n)
      | None => mret None
      end
  end.

(** The [while True] loop of lines 159-163 over the chunks still to come;
    after the last chunk [read] returns the empty chunk, or raises. *)
Fixpoint copy_chunks (temp_path : string) (chunks : list string)
    (fault : option exn) : M unit :=
  match chunks with
  | [] =>
      match fault with
      | Some e => raise e
      | None => mret ()
      end
  | chunk :: rest =>
      if is_empty chunk then mret ()
      else handle_write temp_path chunk ;; copy_chunks temp_path rest fault
  end.

Definition size_mismatch (remote_size downloaded_size : Z) : exn :=
  Exn OSError ("size mismatch: expected " +:+ str_of_Z remote_size
               +:+ " got " +:+ str_of_Z downloaded_size).

(** The guarded block, lines 157-170. *)
Definition transfer (ev : env) (url output_path temp_path : string)
    (remote_size : option Z) : M unit :=
  response ← urlopen_get ev url;
  open_w temp_path ;;
  copy_chunks temp_path (read_chunks CHUNK_SIZE response) (resp_fault response) ;;
  match remote_size with
  | Some expected =>
      downloaded_size ← os_path_getsize ev temp_path;
      if bool_decide (downloaded_size ≠ expected)
      then raise (size_mismatch expected downloaded_size)
      else mret ()
  | None => mret ()
  end ;;
  os_replace temp_path output_path.

(** [with lock: failures.append(f)] *)
Definition append_failure (f : failure) : M unit := λ s,
  (Ok (), set_failures (λ l, l ++ [f]) s).

(** The handler, lines 172-175. *)
Definition on_failure (region url temp_path : string) (exc : exn) : M unit :=
  present ← os_path_exists temp_path;
  (if present : bool then os_remove temp_path else mret ()) ;;
  append_failure (region, url, exn_str exc).

(** Lines 140-143. *)
Definition probe (ev : env) (url : string) : M (option Z) :=
  try_except (get_remote_size ev url) [URLError] (λ _, mret None).

(** Lines 145-150: [true] when the function returns there. *)
Definition already_complete (ev : env) (output_path : string)
    (remote_size : option Z) : M bool :=
  present ← os_path_exists output_path;
  if present : bool then
    local_size ← os_path_getsize ev output_path;
    if bool_decide (remote_size = None) && bool_decide (local_size > 0) then mret true
    else if bool_decide (remote_size ≠ None) && bool_decide (Some local_size = remote_size)
    then mret true
    else mret false
  else mret false.

(** Lines 152-175. *)
Definition fetch (ev : env) (region url output_path : string)
    (remote_size : option Z) : M unit :=
  let temp_path := output_path +:+ ".part" in
  present ← os_path_exists temp_path;
  (if present : bool then os_remove temp_path else mret ()) ;;
  try_except (transfer ev url output_path temp_path remote_size)
    [URLError; OSError; TimeoutError]
    (on_failure region url temp_path).

Definition download_task (ev : env) (t : task) : M unit :=
  let url := url t in
  let output_path := output_path t in
  let region := region t in
  let output_dir := dirname output_path in
  os_makedirs output_dir ;;
  remote_size ← probe ev url;
  done ← already_complete ev output_path remote_size;
  if done : bool then mret ()
  else fetch ev region url output_path remote_size.

End Worker.

(** ** The orchestrator *)

Module Orchestrator.
Import PyStr PosixPath.
Export Worker.

(** The parsed command line. *)
Record args := Args {
  source_root : string;
  output_root : string;
  threads : Z;
  log_file : string
}.

Definition lift {A} (r : result A) : M A := λ s, (r, s).

(** The pool at work (lines 184-187), the tasks taken one after the other
    in submission order. A task that raises does not stop the others: its
    exception is kept in its future, [future.result()] raises it again,
    and leaving the [with] block waits for the tasks still queued. *)
Fixpoint run_tasks (ev : env) (tasks : list task) : M unit :=
  match tasks with
  | [] => mret ()
  | t :: rest => λ s,
      match download_task ev t s with
      | (Ok _, s1) => run_tasks ev rest s1
      | (Raise e, s1) => (Raise e, (run_tasks ev rest s1).2)
      end
  end.

Definition executor (ev : env) (max_workers : Z) (tasks : list task) : M unit :=
  if bool_decide (max_workers ≤ 0)
  then raise (Exn ValueError "max_workers must be greater than 0")
  else run_tasks ev tasks.

Definition missing_failure (m : string * string) : failure :=
  (m.1, "MISSING_URL:" +:+ m.2, "not found").

(** Lines 189-192. *)
Definition add_missing (missing_urls : list (string * string)) : M unit := λ s,
  (Ok (), set_failures (λ l, l ++ (missing_failure <$> missing_urls)) s).

(** The line written for one failure (line 197). *)
Definition log_line (f : failure) : string :=
  f.1.1 +:+ String tab (f.1.2 +:+ String tab (f.2 +:+ String nl "")).

Fixpoint write_failures (path : string) (l : list failure) : M unit :=
  match l with
  | [] => mret ()
  | f :: rest => handle_write path (log_line f) ;; write_failures path rest
  end.

Definition print (line : string) : M unit := λ s, (Ok (), add_stdout line s).

Definition get_failures : M (list failure) := λ s, (Ok (failures s), s).

(** Lines 194-200. *)
Definition report (a : args) : M unit :=
  l ← get_failures;
  if negb (bool_decide (l = [])) then
    open_w (log_file a) ;;
    write_failures (log_file a) l ;;
    print ("Finished with " +:+ str_of_Z (Z.of_nat (length l))
           +:+ " failures. See " +:+ log_file a +:+ ".")
  else print "Download completed without failures.".

Definition new_failures : M unit := λ s, (Ok (), set_failures (λ _, []) s).

(** [main], with the parsed arguments [a] and the directory tree [src] found
    at [source_root a]. *)
Definition main (ev : env) (a : args) (src : node) : M unit :=
  collected ← lift (collect_tasks (source_root a) (output_root a) src);
  let tasks := collected.1 in
  let missing_urls := collected.2 in
  new_failures ;;
  executor ev (threads a) tasks ;;
  (if negb (bool_decide (missing_urls = [])) then add_missing missing_urls else mret ()) ;;
  report a.

End Orchestrator.

(** ** Example worlds *)

Module Worlds.
Import PyStr PosixPath Orchestrator.

(** One task, for tile [x.tif] of region [A]. *)
Definition tile_task : task := Task "A" "http://h/x.tif" "o/A_x.tif".

(** A store in which the tile of [tile_task] is there, five bytes long. *)
Definition complete_store : state :=
  State (<["o/A_x.tif" := FFile "12345"]> {["o" := FDir]}) [] [] [].

(** The server announces five bytes and sends them. *)
Definition five_bytes : env :=
  Env (λ _, Ok (Some "5")) (λ _, Ok (Response "12345" None)) 4096.

(** A GET that is refused: the server answers 404. *)
Definition not_found : env :=
  Env (λ _, Ok None) (λ _, Raise (Exn HTTPError "HTTP Error 404: Not Found")) 4096.

(** The server announces 7 bytes and sends 5. *)
Definition short_body : env :=
  Env (λ _, Ok (Some "7")) (λ _, Ok (Response "12345" None)) 4096.

(** A store with an older, shorter file at the destination. *)
Definition stale_store : state :=
  State (<["o/A_x.tif" := FFile "old"]> {["o" := FDir]}) [] [] [].

(** The HEAD request times out while the answer is awaited: [urlopen]
    raises a [TimeoutError] that is not wrapped in a [URLError]. *)
Definition probe_times_out : env :=
  Env (λ _, Raise (Exn TimeoutError "timed out"))
      (λ _, Ok (Response "12345" None)) 4096.

(** The default command line, and a store with the log of an earlier run. *)
Definition default_args : args := Args "dataset" "dataset" 8 "download_failures.log".

Definition old_log : state :=
  State {["download_failures.log" :=
            FFile (log_line ("A", "http://h/x.tif", "timed out"))]} [] [] [].

(** A source tree with one tile that has no URL, and the state in which
    [main] ends on it. *)
Definition one_missing : node :=
  Dir [("DSMs", Dir [("A", Dir [("u.csv", File "http://h/x.tif");
                                ("test.txt", File "y.tif")])])].

Definition after_one_missing : state :=
  State {["download_failures.log" :=
            FFile (log_line ("A", "MISSING_URL:y.tif", "not found"))]}
        [] [("A", "MISSING_URL:y.tif", "not found")]
        ["Finished with 1 failures. See download_failures.log."].

(** A region with one tile that has a URL and one that has none, and the
    state in which a first run of [main] ends on it. *)
Definition two_tiles : node :=
  Dir [("DSMs", Dir [("A", Dir [("u.csv", File "http://h/x.tif");
                                ("train.txt", File "x.tif
y.tif")])])].

Definition after_first_run : state :=
  State (<["download_failures.log" :=
            FFile (log_line ("A", "MISSING_URL:y.tif", "not found"))]>
         (<["dataset/train/dsm/A_x.tif" := FFile "12345"]>
       (<["dataset/train/dsm" := FDir]>
          (<["dataset/train" := FDir]> {["dataset" := FDir]}))))
        ["http://h/x.tif"]
        [("A", "MISSING_URL:y.tif", "not found")]
        ["Finished with 1 failures. See download_failures.log."].

(** A remote file that is empty and whose size the server does not
    announce. *)
Definition empty_unknown : env :=
  Env (λ _, Ok None) (λ _, Ok (Response "" None)) 4096.

(** A region with one tile. *)
Definition one_tile : node :=
  Dir [("DSMs", Dir [("A", Dir [("u.csv", File "http://h/x.tif");
                                ("train.txt", File "x.tif")])])].

End Worlds.

(** * The model on examples *)

Module PyStrTests.
Import PyStr PosixPath.

Example strip_ex : strip "  tile_001.tif,extra
" = "tile_001.tif,extra".
Proof. reflexivity. Qed.

Example lines_ex :
  text_lines ("a" +:+ String cr (String nl "b") +:+ String cr (String cr "c"))
  = ["a" +:+ String nl ""; "b" +:+ String nl ""; String nl ""; "c"].
Proof. reflexivity. Qed.

Example after_last_ex : after_last "/" "http://host/tile_001.tif" = "tile_001.tif".
Proof. reflexivity. Qed.

Example after_last_none : after_last "/" "tile" = "tile".
Proof. reflexivity. Qed.

Example before_first_ex : before_first "," "tile_001.tif,extra,more" = "tile_001.tif".
Proof. reflexivity. Qed.

Example join_ex : join (join (join "dataset" "train") "dsm") "A_t.tif" = "dataset/train/dsm/A_t.tif".
Proof. reflexivity. Qed.

Example join_abs : join "dataset" "/x" = "/x".
Proof. reflexivity. Qed.

Example dirname_ex : dirname "dataset/train/dsm/A_t.tif" = "dataset/train/dsm".
Proof. reflexivity. Qed.

Example dirname_root : dirname "/x" = "/".
Proof. reflexivity. Qed.

Example dirname_none : dirname "x" = "".
Proof. reflexivity. Qed.

Example int_ex : int_of_str " 1_000 " = Some 1000.
Proof. reflexivity. Qed.

Example int_neg : int_of_str "-42" = Some (-42).
Proof. reflexivity. Qed.

Example int_bad : int_of_str "12a" = None.
Proof. reflexivity. Qed.

Example int_bad_underscore : int_of_str "1__0" = None.
Proof. reflexivity. Qed.

Example str_ex : str_of_Z 1048576 = "1048576".
Proof. reflexivity. Qed.

Example str_neg : str_of_Z (-7) = "-7".
Proof. reflexivity. Qed.

Example lower_ex : lower "Train_VAL.TXT" = "train_val.txt".
Proof. reflexivity. Qed.

Example endswith_ex : endswith ".csv" "urls.csv" = true.
Proof. reflexivity. Qed.
End PyStrTests.

Module ResolverTests.
Import PyStr PosixPath Resolver.

Definition tree1 : node :=
  Dir [("DTMs", Dir [("B", Dir [("u.CSV", File "http://h/x.tif"); ("test_list.TXT", File "x.tif,1
y.tif
")])]);
       ("DSMs", Dir [("b", Dir [("notes.txt", File "zz"); ("urls.csv", File "")]);
                     ("Alpha.1", Dir [("val.txt", File "t1.tif
");
                                      ("urls.csv", File "http://h/a/t1.tif
http://h/b/t1.tif
")])])].

Example collect_ex :
  collect_tasks "data" "out" tree1 =
  Ok ([Task "Alpha.1" "http://h/b/t1.tif" "out/val/dsm/Alpha1_t1.tif";
       Task "B" "http://h/x.tif" "out/test/dtm/B_x.tif"],
      [("B", "y.tif")]).
Proof. vm_compute. reflexivity. Qed.

Example sorted_ex : sorted ["b"; "Alpha.1"; "a"; "B"] = ["Alpha.1"; "B"; "a"; "b"].
Proof. vm_compute. reflexivity. Qed.
End ResolverTests.

Module WorkerTests.
Import PyStr PosixPath Orchestrator.

Definition s0 : state := State ∅ [] [] [].

Definition ev1 : env :=
  Env (λ u, if String.eqb u "http://h/a.tif" then Ok (Some "5")
            else if String.eqb u "http://h/b.tif" then Ok None
            else Raise (Exn URLError "<urlopen error no route>"))
      (λ u, if String.eqb u "http://h/a.tif" then Ok (Response "12345" None)
            else if String.eqb u "http://h/b.tif" then Ok (Response "123" None)
            else Raise (Exn HTTPError "HTTP Error 404: Not Found"))
      4096.

Example chunks_ex : chunks_go 2 0 "" "abcde" = ["ab"; "cd"; "e"].
Proof. reflexivity. Qed.

Example download_ok :
  download_task ev1 (Task "R" "http://h/a.tif" "out/train/dsm/R_a.tif") s0
  = (Ok (), State (<["out/train/dsm/R_a.tif" := FFile "12345"]>
                    (<["out/train/dsm" := FDir]> (<["out/train" := FDir]> {["out" := FDir]})))
                  ["http://h/a.tif"] [] []).
Proof. vm_compute. reflexivity. Qed.

Example download_404 :
  (download_task ev1 (Task "R" "http://h/c.tif" "o/R_c.tif") s0)
  = (Ok (), State {["o" := FDir]} ["http://h/c.tif"]
                  [("R", "http://h/c.tif", "HTTP Error 404: Not Found")] []).
Proof. vm_compute. reflexivity. Qed.

Definition tree2 : node :=
  Dir [("DSMs", Dir [("R", Dir [("u.csv", File "http://h/a.tif
http://h/c.tif"); ("train.txt", File "a.tif
c.tif
zz.tif")])])].

Example main_ex :
  main ev1 (Args "data" "out" 8 "fail.log") tree2 s0
  = (Ok (),
     State (<["fail.log" := FFile
               ("R" +:+ String tab ("http://h/c.tif" +:+ String tab ("HTTP Error 404: Not Found" +:+ String nl (
                "R" +:+ String tab ("MISSING_URL:zz.tif" +:+ String tab ("not found" +:+ String nl ""))))))]>
            (<["out/train/dsm/R_a.tif" := FFile "12345"]>
              (<["out/train/dsm" := FDir]> (<["out/train" := FDir]> {["out" := FDir]}))))
           ["http://h/a.tif"; "http://h/c.tif"]
           [("R", "http://h/c.tif", "HTTP Error 404: Not Found");
            ("R", "MISSING_URL:zz.tif", "not found")]
           ["Finished with 2 failures. See fail.log."]).
Proof. vm_compute. reflexivity. Qed.
End WorkerTests.

(** * Properties *)

(** ** Strings *)

Module PyStrFacts.
Import PyStr.

(** [needle] occurs in [s]. *)
Definition substring (needle s : string) : Prop :=
  ∃ pre post, s = pre +:+ needle +:+ post.

Lemma sapp_nil_l (s : string) : "" +:+ s = s.
Proof. reflexivity. Qed.

Lemma sapp_cons (c : ascii) (s t : string) : String c s +:+ t = String c (s +:+ t).
Proof. reflexivity. Qed.

Lemma sapp_nil_r (s : string) : s +:+ "" = s.
Proof. induction s as [|c s IH]; [done|]. by rewrite sapp_cons, IH. Qed.

Lemma sapp_assoc (a b c : string) : (a +:+ b) +:+ c = a +:+ b +:+ c.
Proof. induction a as [|x a IH]; [done|]. by rewrite !sapp_cons, IH. Qed.

Lemma startswith_spec (p s : string) :
  startswith p s = true ↔ ∃ t, s = p +:+ t.
Proof.
  revert s. induction p as [|a p IH]; intros s; simpl.
  - split; [intros _; by exists s|done].
  - destruct s as [|b s].
    + split; [done|]. intros [t Ht]. by rewrite sapp_cons in Ht.
    + destruct (Ascii.eqb_spec a b) as [->|Hne].
      * rewrite IH. split; intros [t Ht]; exists t.
        -- by rewrite sapp_cons, Ht.
        -- rewrite sapp_cons in Ht. congruence.
      * split; [done|]. intros [t Ht]. rewrite sapp_cons in Ht. congruence.
Qed.

Lemma contains_spec (needle s : string) :
  contains needle s = true ↔ substring needle s.
Proof.
  induction s as [|c s IH].
  - simpl. rewrite orb_false_r, startswith_spec. split.
    + intros [t Ht]. by exists "", t.
    + intros ([|x pre] & post & Ht); [by exists post|].
      by rewrite sapp_cons in Ht.
  - cbn [contains]. rewrite orb_true_iff, IH, startswith_spec. split.
    + intros [[t Ht]|(pre & post & Ht)].
      * by exists "", t.
      * exists (String c pre), post. by rewrite sapp_cons, Ht.
    + intros ([|x pre] & post & Ht).
      * left. by exists post.
      * right. rewrite sapp_cons in Ht. exists pre, post. congruence.
Qed.

Lemma lower_app (a b : string) : lower (a +:+ b) = lower a +:+ lower b.
Proof.
  induction a as [|c a IH]; [done|].
  rewrite sapp_cons. simpl. by rewrite IH, sapp_cons.
Qed.

(** A needle without upper-case letters that occurs in a name occurs in
    the lowered name. *)
Lemma substring_lower (needle s : string) :
  lower needle = needle → substring needle s → substring needle (lower s).
Proof.
  intros Hl (pre & post & ->).
  exists (lower pre), (lower post). by rewrite !lower_app, Hl.
Qed.

End PyStrFacts.

(** ** Split classification *)

Module SplitFacts.
Import PyStr PyStrFacts Resolver.

Lemma contains_false (needle s : string) :
  contains needle s = false ↔ ¬ substring needle s.
Proof. rewrite <- contains_spec. by destruct (contains needle s). Qed.

(** C8. [split_from_manifest] looks for "train", then "val", then "test" in
    the lowered file name and answers the first one found, [None] when
    none occurs; so a name in which both "train" and "val" occur is
    classified "train". *)
Theorem split_from_manifest_priority (filename : string) :
  (substring "train" (lower filename) →
     split_from_manifest filename = Some "train") ∧
  (¬ substring "train" (lower filename) → substring "val" (lower filename) →
     split_from_manifest filename = Some "val") ∧
  (¬ substring "train" (lower filename) → ¬ substring "val" (lower filename) →
   substring "test" (lower filename) →
     split_from_manifest filename = Some "test") ∧
  (¬ substring "train" (lower filename) → ¬ substring "val" (lower filename) →
   ¬ substring "test" (lower filename) →
     split_from_manifest filename = None) ∧
  (substring "train" filename → substring "val" filename →
     split_from_manifest filename = Some "train").
Proof.
  unfold split_from_manifest.
  repeat split.
  - intros H%contains_spec. by rewrite H.
  - intros H1%contains_false H2%contains_spec. by rewrite H1, H2.
  - intros H1%contains_false H2%contains_false H3%contains_spec.
    by rewrite H1, H2, H3.
  - intros H1%contains_false H2%contains_false H3%contains_false.
    by rewrite H1, H2, H3.
  - intros H _. apply (substring_lower "train") in H; [|done].
    apply contains_spec in H. by rewrite H.
Qed.

Lemma split_from_manifest_priority_witness :
  split_from_manifest "Train_eval.TXT" = Some "train" ∧
  split_from_manifest "val_test.txt" = Some "val" ∧
  split_from_manifest "train_val.txt" = Some "train".
Proof.
  split; [|split].
  - destruct (split_from_manifest_priority "Train_eval.TXT") as (H & _).
    apply H. by exists "", "_eval.txt".
  - destruct (split_from_manifest_priority "val_test.txt") as (_ & H & _).
    apply H.
    + apply contains_false. reflexivity.
    + by exists "", "_test.txt".
  - destruct (split_from_manifest_priority "train_val.txt") as (_ & _ & _ & _ & H).
    apply H.
    + by exists "", "_val.txt".
    + by exists "train_", ".txt".
Defined.

End SplitFacts.

(** ** Resolution of manifest lines *)

Module ResolverFacts.
Import PyStr PosixPath PyStrFacts Resolver.

(** What one tile line becomes: a download task or a missing entry. *)
Definition outcome : Type := task + (string * string).

Definition tasks_of (outs : list outcome) : list task :=
  omap (λ o, match o with inl t => Some t | inr _ => None end) outs.

Definition missing_of (outs : list outcome) : list (string * string) :=
  omap (λ o, match o with inl _ => None | inr m => Some m end) outs.

(** The tile lines of a manifest: its lines without the white space
    around them, empty ones left out. *)
Definition tile_lines (content : string) : list string :=
  filter (λ l, l ≠ "") (strip <$> text_lines content).

(** The destination of a tile. *)
Definition destination (output_root split dtype region tile_name : string) : string :=
  join (join (join output_root split) dtype)
       (remove_char "." region +:+ "_" +:+ tile_name).

(** The outcome the specification asks for a tile line: a task when the
    tile name, what stands before the first comma, is a key of the URL map,
    a missing entry when it is not. *)
Definition line_outcome (output_root dtype region split : string)
    (url_map : gmap string string) (line : string) (o : outcome) : Prop :=
  let tile_name := before_first "," line in
  (∀ u, url_map !! tile_name = Some u →
        o = inl (Task region u (destination output_root split dtype region tile_name))) ∧
  (url_map !! tile_name = None → o = inr (region, tile_name)).

(** The classified split files of a region directory, in listing order,
    each with its split and its text. *)
Definition classified_files (rn : node) : list (string * string) :=
  omap (λ name,
          match split_from_manifest name, child rn name with
          | Some split, Some (File content) => Some (split, content)
          | _, _ => None
          end)
       (filter (λ entry, endswith ".txt" (lower entry)) (listdir rn)).

Section Lines.
Variables output_root dtype region : string.
Variable url_map : gmap string string.

Lemma tasks_of_app (a b : list outcome) : tasks_of (a ++ b) = tasks_of a ++ tasks_of b.
Proof. apply omap_app. Qed.

Lemma missing_of_app (a b : list outcome) :
  missing_of (a ++ b) = missing_of a ++ missing_of b.
Proof. apply omap_app. Qed.

(** A line that is empty once stripped changes nothing. *)
Lemma resolve_line_blank (split : string) (a : acc) (raw : string) :
  strip raw = "" →
  resolve_line output_root dtype region split url_map a raw = a.
Proof. intros H. unfold resolve_line. by rewrite H. Qed.

(** Any other line appends exactly one outcome. *)
Lemma resolve_line_one (split : string) (a : acc) (raw : string) :
  strip raw ≠ "" →
  ∃ o, line_outcome output_root dtype region split url_map (strip raw) o ∧
       resolve_line output_root dtype region split url_map a raw
       = (a.1 ++ tasks_of [o], a.2 ++ missing_of [o]).
Proof.
  intros Hne. unfold resolve_line, line_outcome.
  destruct (strip raw) as [|c r] eqn:Hs; [done|]. cbn [is_empty].
  destruct (url_map !! before_first "," (String c r)) as [u|] eqn:Hu.
  - eexists (inl _). split; [split|].
    + intros u' [= <-]. reflexivity.
    + done.
    + cbn. by rewrite app_nil_r.
  - exists (inr (region, before_first "," (String c r))). split; [split|].
    + done.
    + done.
    + cbn. by rewrite app_nil_r.
Qed.

Lemma resolve_lines_outcomes (split : string) (raws : list string) (a : acc) :
  ∃ outs,
    Forall2 (line_outcome output_root dtype region split url_map)
            (filter (λ l, l ≠ "") (strip <$> raws)) outs ∧
    fold_left (resolve_line output_root dtype region split url_map) raws a
    = (a.1 ++ tasks_of outs, a.2 ++ missing_of outs).
Proof.
  revert a. induction raws as [|raw raws IH]; intros a.
  - exists []. split; [constructor|]. cbn. rewrite !app_nil_r. by destruct a.
  - cbn [fold_left fmap list_fmap]. destruct (decide (strip raw = "")) as [He|Hne].
    + rewrite (resolve_line_blank _ _ _ He), filter_cons_False by (by intros ?).
      apply IH.
    + destruct (resolve_line_one split a raw Hne) as (o & Ho & ->).
      destruct (IH (a.1 ++ tasks_of [o], a.2 ++ missing_of [o])) as (outs & Hf & ->).
      exists (o :: outs). rewrite filter_cons_True by done. split.
      * by constructor.
      * cbn [fst snd]. rewrite <- !app_assoc.
        by rewrite <- tasks_of_app, <- missing_of_app.
Qed.

End Lines.

(** The tile lines of the classified split files of a region, each with the
    split of its file, in the order in which the files are listed. *)
Definition region_tile_lines (rn : node) : list (string * string) :=
  '(split, content) ← classified_files rn;
  (split,.) <$> tile_lines content.

Lemma resolve_manifests_outcomes (output_root dtype region region_dir : string)
    (rn : node) (url_map : gmap string string) (names : list string) (a : acc) :
  (∀ name, name ∈ names → split_from_manifest name ≠ None →
           ∃ content, child rn name = Some (File content)) →
  ∃ outs,
    Forall2 (λ sl o, line_outcome output_root dtype region sl.1 url_map sl.2 o)
            ('(split, content) ←
               omap (λ name,
                       match split_from_manifest name, child rn name with
                       | Some split, Some (File content) => Some (split, content)
                       | _, _ => None
                       end) names;
             (split,.) <$> tile_lines content)
            outs ∧
    resolve_manifests output_root dtype region region_dir rn url_map names a
    = Ok (a.1 ++ tasks_of outs, a.2 ++ missing_of outs).
Proof.
  revert a. induction names as [|name names IH]; intros a Hfiles.
  - exists []. split; [constructor|]. cbn. rewrite !app_nil_r. by destruct a.
  - cbn [resolve_manifests omap list_omap].
    destruct (split_from_manifest name) as [split|] eqn:Hsplit.
    + destruct (Hfiles name) as [content Hc]; [left|congruence|].
      rewrite Hc. cbn [open_read mbind list_bind].
      unfold resolve_manifest.
      destruct (resolve_lines_outcomes output_root dtype region url_map split
                  (text_lines content) a) as (outs1 & Hf1 & ->).
      destruct (IH (a.1 ++ tasks_of outs1, a.2 ++ missing_of outs1))
        as (outs2 & Hf2 & ->).
      { intros n Hn. apply Hfiles. by right. }
      exists (outs1 ++ outs2). split.
      * apply Forall2_app; [|done]. apply Forall2_fmap_l. exact Hf1.
      * cbn [fst snd]. by rewrite <- !app_assoc, tasks_of_app, missing_of_app.
    + apply IH. intros n Hn. apply Hfiles. by right.
Qed.

(** C1. In a region directory that has a URL list and whose classified
    split files are regular files, every tile line of every classified
    split file yields exactly one outcome, appended in order: a task, when
    its tile name is a key of the URL map, and otherwise a missing entry
    for the region and the tile name. *)
Theorem resolve_region_one_outcome_per_line
    (output_root dtype base_dir region : string) (base : node)
    (es : list (string * node)) (csv csv_content : string)
    (others : list string) (a : acc) :
  child base region = Some (Dir es) →
  filter (λ entry, endswith ".csv" (lower entry)) (listdir (Dir es)) = csv :: others →
  child (Dir es) csv = Some (File csv_content) →
  (∀ name, name ∈ filter (λ entry, endswith ".txt" (lower entry)) (listdir (Dir es)) →
           split_from_manifest name ≠ None →
           ∃ content, child (Dir es) name = Some (File content)) →
  ∃ outs,
    Forall2 (λ sl o, line_outcome output_root dtype region sl.1
                                  (read_url_map csv_content) sl.2 o)
            (region_tile_lines (Dir es)) outs ∧
    resolve_region output_root dtype base_dir base a region
    = Ok (a.1 ++ tasks_of outs, a.2 ++ missing_of outs) ∧
    (length (tasks_of outs) + length (missing_of outs)
     = length (region_tile_lines (Dir es)))%nat.
Proof.
  intros Hregion Hcsv Hfile Htxt.
  unfold resolve_region. rewrite Hregion, Hcsv, Hfile. cbn [open_read].
  destruct (resolve_manifests_outcomes output_root dtype region
              (join base_dir region) (Dir es) (read_url_map csv_content)
              _ a Htxt) as (outs & Hf & Hr).
  exists outs. split; [exact Hf|]. split; [exact Hr|].
  apply Forall2_length in Hf. unfold region_tile_lines, classified_files.
  rewrite Hf. clear. unfold tasks_of, missing_of.
  induction outs as [|[t|m] outs IH]; cbn; lia.
Qed.

Definition beta_entries : list (string * node) :=
  [("tiles.csv", File "http://host/t1.tif
http://host/t2.tif
");
   ("val_list.txt", File "t1.tif,0.5

t9.tif
");
   ("readme.txt", File "t2.tif")].

Lemma resolve_region_one_outcome_per_line_witness :
  ∃ outs,
    Forall2 (λ sl o, line_outcome "out" "dtm" "Beta" sl.1
               (read_url_map "http://host/t1.tif
http://host/t2.tif
") sl.2 o)
            (region_tile_lines (Dir beta_entries)) outs ∧
    resolve_region "out" "dtm" "data/DTMs" (Dir [("Beta", Dir beta_entries)])
                   ([], []) "Beta"
    = Ok ([] ++ tasks_of outs, [] ++ missing_of outs) ∧
    (length (tasks_of outs) + length (missing_of outs)
     = length (region_tile_lines (Dir beta_entries)))%nat.
Proof.
  apply (resolve_region_one_outcome_per_line "out" "dtm" "data/DTMs" "Beta"
           (Dir [("Beta", Dir beta_entries)]) beta_entries "tiles.csv"
           "http://host/t1.tif
http://host/t2.tif
" [] ([], [])).
  - reflexivity.
  - vm_compute. reflexivity.
  - reflexivity.
  - intros name Hin Hsplit.
    replace (filter (λ entry, endswith ".txt" (lower entry)) (listdir (Dir beta_entries)))
      with ["val_list.txt"; "readme.txt"] in Hin by (vm_compute; reflexivity).
    apply elem_of_cons in Hin as [->|Hin].
    + eexists. reflexivity.
    + apply list_elem_of_singleton in Hin as ->. eexists. reflexivity.
Defined.

Example beta_resolved :
  resolve_region "out" "dtm" "data/DTMs" (Dir [("Beta", Dir beta_entries)])
                 ([], []) "Beta"
  = Ok ([Task "Beta" "http://host/t1.tif" "out/val/dtm/Beta_t1.tif"],
        [("Beta", "t9.tif")]).
Proof. vm_compute. reflexivity. Qed.

End ResolverFacts.

(** ** The Alpha.1 scenario *)

Module Scenario.
Import PyStr PosixPath PyStrFacts Resolver ResolverFacts.

Lemma eqb_slash_cons (c : ascii) (r : string) :
  is_empty r = false → String.eqb "/" (String c r) = false.
Proof.
  intros Hr. cbn [String.eqb]. destruct (Ascii.eqb "/" c); [|done].
  by destruct r.
Qed.

Lemma is_empty_app (a b : string) : is_empty b = false → is_empty (a +:+ b) = false.
Proof. intros Hb. destruct a; [done|]. by rewrite sapp_cons. Qed.

(** Whether a path ends with a slash is decided by its last component. *)
Lemma endswith_slash_app (a b : string) :
  is_empty b = false → endswith "/" (a +:+ b) = endswith "/" b.
Proof.
  intros Hb. induction a as [|c a IH]; [done|].
  rewrite sapp_cons. cbn [endswith]. rewrite IH.
  by rewrite eqb_slash_cons by (by apply is_empty_app).
Qed.

(** [os.path.join] of a directory without final slash and a relative
    name. *)
Lemma join_plain (a b : string) :
  is_empty a = false → endswith "/" a = false → startswith "/" b = false →
  join a b = a +:+ "/" +:+ b.
Proof. intros Ha Hs Hb. unfold join. by rewrite Hb, Ha, Hs. Qed.

Lemma destination_plain (output_root tile : string) :
  is_empty output_root = false → endswith "/" output_root = false →
  destination output_root "train" "dsm" "Alpha.1" tile
  = output_root +:+ "/train/dsm/Alpha1_" +:+ tile.
Proof.
  intros Ha Hs. unfold destination.
  rewrite (join_plain output_root "train") by done.
  rewrite (join_plain _ "dsm"); [| by apply is_empty_app
                                 | by rewrite endswith_slash_app | done].
  rewrite (join_plain _ (_ +:+ _)); [| by apply is_empty_app
                                     | by rewrite !endswith_slash_app | done].
  by rewrite !sapp_assoc.
Qed.

(** The source tree of the scenario: under [DSMs], the region [Alpha.1]
    with a URL list of text [csv] and a [train.txt] of one line. *)
Definition alpha_tree (csv : string) : node :=
  Dir [("DSMs",
        Dir [("Alpha.1",
              Dir [("tiles.csv", File csv);
                   ("train.txt", File "tile_001.tif,extra")])])].

(** C9. With the URL map [{"tile_001.tif": "http://host/tile_001.tif"}] for
    region [Alpha.1] and a [train.txt] holding [tile_001.tif,extra],
    resolution yields the one task of region [Alpha.1], URL
    [http://host/tile_001.tif] and destination
    [<output_root>/train/dsm/Alpha1_tile_001.tif], and no missing entry. *)
Theorem alpha_scenario (source_root output_root csv : string) :
  read_url_map csv = {["tile_001.tif" := "http://host/tile_001.tif"]} →
  is_empty output_root = false →
  endswith "/" output_root = false →
  collect_tasks source_root output_root (alpha_tree csv)
  = Ok ([Task "Alpha.1" "http://host/tile_001.tif"
              (output_root +:+ "/train/dsm/Alpha1_tile_001.tif")], []).
Proof.
  intros Hmap Hne Hslash.
  unfold collect_tasks, resolve_type, alpha_tree. cbn [child assoc String.eqb Ascii.eqb Bool.eqb].
  replace (sorted (listdir (Dir [("Alpha.1",
              Dir [("tiles.csv", File csv);
                   ("train.txt", File "tile_001.tif,extra")])])))
    with ["Alpha.1"] by (vm_compute; reflexivity).
  cbn [resolve_regions]. unfold resolve_region.
  cbn [child assoc String.eqb Ascii.eqb Bool.eqb listdir fmap list_fmap fst].
  replace (filter (λ entry, endswith ".csv" (lower entry)) ["tiles.csv"; "train.txt"])
    with ["tiles.csv"] by (vm_compute; reflexivity).
  replace (filter (λ entry, endswith ".txt" (lower entry)) ["tiles.csv"; "train.txt"])
    with ["train.txt"] by (vm_compute; reflexivity).
  cbn [child assoc String.eqb Ascii.eqb Bool.eqb open_read resolve_manifests].
  replace (split_from_manifest "train.txt") with (Some "train") by (vm_compute; reflexivity).
  cbn [child assoc String.eqb Ascii.eqb Bool.eqb open_read resolve_manifests].
  unfold resolve_manifest.
  replace (text_lines "tile_001.tif,extra") with ["tile_001.tif,extra"]
    by (vm_compute; reflexivity).
  cbn [fold_left]. unfold resolve_line.
  replace (strip "tile_001.tif,extra") with "tile_001.tif,extra" by (vm_compute; reflexivity).
  cbn [is_empty].
  replace (before_first "," "tile_001.tif,extra") with "tile_001.tif"
    by (vm_compute; reflexivity).
  rewrite Hmap, lookup_singleton_eq. cbn [fst snd app].
  fold (destination output_root "train" "dsm" "Alpha.1" "tile_001.tif").
  by rewrite destination_plain.
Qed.

Lemma alpha_scenario_witness :
  collect_tasks "dataset" "dataset" (alpha_tree "http://host/tile_001.tif
")
  = Ok ([Task "Alpha.1" "http://host/tile_001.tif"
              "dataset/train/dsm/Alpha1_tile_001.tif"], []).
Proof.
  apply (alpha_scenario "dataset" "dataset"); vm_compute; reflexivity.
Defined.

End Scenario.

(** ** The file store and the calls on it *)

Module StoreFacts.
Import PyStr PosixPath PyStrFacts Worker.

(** The text written by successive writes. *)
Definition concat_s (l : list string) : string := foldr String.append "" l.

Lemma rev_app_spec (s t : string) : String.rev_app s t = String.rev s +:+ t.
Proof.
  revert t. induction s as [|a s IH]; intros t; [done|].
  unfold String.rev. cbn [String.rev_app].
  rewrite (IH (String a t)), (IH (String a "")), sapp_assoc.
  by rewrite sapp_cons, sapp_nil_l.
Qed.

Lemma rev_cons (a : ascii) (s : string) :
  String.rev (String a s) = String.rev s +:+ String a "".
Proof. unfold String.rev at 1. cbn [String.rev_app]. apply rev_app_spec. Qed.

(** The chunks read are the body, cut into pieces. *)
Lemma chunks_go_concat (amt k : N) (cur body : string) :
  concat_s (chunks_go amt k cur body) = String.rev cur +:+ body.
Proof.
  revert k cur. induction body as [|b body IH]; intros k cur.
  - cbn [chunks_go]. destruct cur; [done|].
    cbn [is_empty concat_s foldr]. by rewrite sapp_nil_r.
  - cbn [chunks_go]. destruct (k + 1 =? amt)%N.
    + cbn [concat_s foldr]. fold (concat_s (chunks_go amt 0 "" body)).
      rewrite IH, rev_cons, sapp_assoc. by rewrite sapp_cons, !sapp_nil_l.
    + rewrite IH, rev_cons, sapp_assoc. by rewrite sapp_cons, sapp_nil_l.
Qed.

(** No chunk read is empty. *)
Lemma chunks_go_nonempty (amt k : N) (cur body : string) :
  Forall (λ c, is_empty c = false) (chunks_go amt k cur body).
Proof.
  assert (Hrev : ∀ a s, is_empty (String.rev (String a s)) = false).
  { intros a s. rewrite rev_cons. destruct (String.rev s); [done|].
    by rewrite sapp_cons. }
  revert k cur. induction body as [|b body IH]; intros k cur.
  - cbn [chunks_go]. destruct cur as [|a cur]; [constructor|].
    cbn [is_empty]. constructor; [apply Hrev|constructor].
  - cbn [chunks_go]. destruct (k + 1 =? amt)%N; [|apply IH].
    constructor; [apply Hrev|apply IH].
Qed.

Lemma read_chunks_concat (amt : N) (r : response) :
  concat_s (read_chunks amt r) = resp_body r.
Proof. unfold read_chunks. by rewrite chunks_go_concat. Qed.

(** A staging path lies in the directory of its destination. *)
Lemma head_upto_slash_app (p q : string) :
  head_upto_slash q = "" → head_upto_slash (p +:+ q) = head_upto_slash p.
Proof.
  intros Hq. induction p as [|c p IH]; [done|].
  rewrite sapp_cons. cbn [head_upto_slash]. by rewrite IH.
Qed.

Lemma dirname_part (p : string) : dirname (p +:+ ".part") = dirname p.
Proof. unfold dirname. by rewrite head_upto_slash_app. Qed.

Lemma length_sapp (s t : string) :
  String.length (s +:+ t) = (String.length s + String.length t)%nat.
Proof. induction s as [|c s IH]; [done|]. rewrite sapp_cons. cbn. by rewrite IH. Qed.

Lemma part_neq (p : string) : p +:+ ".part" ≠ p.
Proof.
  intros H. assert (Hl : String.length (p +:+ ".part") = String.length p) by by rewrite H.
  rewrite length_sapp in Hl. cbn in Hl. lia.
Qed.

(** *** States *)

Lemma set_fs_const_id (s : state) : set_fs (λ _, fs s) s = s.
Proof. by destruct s. Qed.

Lemma state_eq (s s' : state) :
  fs s = fs s' → requests s = requests s' → failures s = failures s' →
  stdout s = stdout s' → s = s'.
Proof. destruct s, s'. cbn. by intros -> -> -> ->. Qed.

(** *** [os.makedirs] *)

Lemma makedirs_go_dir (fuel : nat) (name : string) (m m' : gmap string fnode) :
  makedirs_go fuel name m = Ok m' → m' !! name = Some FDir.
Proof.
  destruct fuel as [|k]; cbn [makedirs_go]; intros H;
    repeat case_match; simplify_eq; try done; by rewrite lookup_insert_eq.
Qed.

(** What exists before [os.makedirs] is as it was after it. *)
Lemma makedirs_go_preserves (fuel : nat) (name : string) (m m' : gmap string fnode)
    (p : string) (n : fnode) :
  makedirs_go fuel name m = Ok m' → m !! p = Some n → m' !! p = Some n.
Proof.
  revert name m'. induction fuel as [|k IH]; intros name m'; cbn [makedirs_go]; intros H Hp;
    repeat case_match; simplify_eq; try done;
    try (rewrite lookup_insert_ne; [done|congruence]).
  rewrite lookup_insert_ne; [|congruence]. eauto.
Qed.

(** [os.makedirs] adds directories only. *)
Lemma makedirs_go_files (fuel : nat) (name : string) (m m' : gmap string fnode)
    (p data : string) :
  makedirs_go fuel name m = Ok m' → m' !! p = Some (FFile data) →
  m !! p = Some (FFile data).
Proof.
  revert name m'. induction fuel as [|k IH]; intros name m'; cbn [makedirs_go]; intros H Hp;
    repeat case_match; simplify_eq; try done;
    try (rewrite lookup_insert in Hp; case_decide; by simplify_eq).
  rewrite lookup_insert in Hp. case_decide; simplify_eq. eauto.
Qed.

Lemma makedirs_go_existing (fuel : nat) (name : string) (m : gmap string fnode) :
  m !! name = Some FDir → makedirs_go fuel name m = Ok m.
Proof. intros H. destruct fuel; cbn [makedirs_go]; by rewrite H. Qed.

(** A directory name is a prefix of the path, hence shorter when it
    differs from it. *)
Lemma head_upto_slash_prefix (p : string) : ∃ t, p = head_upto_slash p +:+ t.
Proof.
  induction p as [|c p [t IH]]; [by exists ""|]. cbn [head_upto_slash].
  destruct (head_upto_slash p) as [|a h] eqn:Hh; cbn [is_empty negb].
  - destruct (Ascii.eqb_spec c "/") as [->|_]; [by exists p|by eexists].
  - exists t. by rewrite sapp_cons, <- IH.
Qed.

Lemma rstrip_slash_prefix (p : string) : ∃ t, p = rstrip_slash p +:+ t.
Proof.
  induction p as [|c p [t IH]]; [by exists ""|]. cbn [rstrip_slash].
  destruct (is_empty (rstrip_slash p) && Ascii.eqb c "/"); [by eexists|].
  exists t. by rewrite sapp_cons, <- IH.
Qed.

Lemma dirname_shorter (p : string) :
  dirname p ≠ p → (String.length (dirname p) < String.length p)%nat.
Proof.
  assert (∃ t, p = dirname p +:+ t) as [t Ht].
  { unfold dirname. destruct (head_upto_slash_prefix p) as [t1 H1].
    destruct (_ && _); [|by exists t1].
    destruct (rstrip_slash_prefix (head_upto_slash p)) as [t2 H2].
    exists (t2 +:+ t1). by rewrite <- sapp_assoc, <- H2. }
  intros Hne. destruct t as [|c t]; [by rewrite sapp_nil_r in Ht|].
  rewrite Ht at 2. rewrite length_sapp. cbn. lia.
Qed.

Lemma makedirs_go_S (k : nat) (name : string) (m : gmap string fnode) :
  makedirs_go (S k) name m =
  match m !! name with
  | Some FDir => Ok m
  | Some (FFile _) => Raise (file_exists name)
  | None =>
      if is_empty name then Raise (no_such_file name)
      else if is_empty (dirname name) || String.eqb (dirname name) name
      then Ok (<[name := FDir]> m)
      else
        match m !! dirname name with
        | Some FDir => Ok (<[name := FDir]> m)
        | Some (FFile _) => Raise (not_a_directory name)
        | None =>
            match makedirs_go k (dirname name) m with
            | Ok m' => Ok (<[name := FDir]> m')
            | Raise e => Raise e
            end
        end
  end.
Proof. reflexivity. Qed.

(** The length of the name is fuel enough for [os.makedirs]: more fuel
    gives the same result. *)
Lemma makedirs_go_fuel (fuel : nat) (name : string) (m : gmap string fnode) :
  (String.length name ≤ fuel)%nat →
  makedirs_go (S fuel) name m = makedirs_go fuel name m.
Proof.
  revert name. induction fuel as [|k IH]; intros name Hlen.
  - destruct name; [|cbn in Hlen; lia]. cbn. by destruct (m !! "") as [[]|].
  - rewrite (makedirs_go_S (S k) name m), (makedirs_go_S k name m).
    destruct (m !! name) as [[]|]; [done..|].
    destruct (is_empty name); [done|].
    destruct (String.eqb_spec (dirname name) name) as [He|Hne].
    { by rewrite orb_true_r. }
    rewrite orb_false_r. destruct (is_empty (dirname name)); [done|].
    pose proof (dirname_shorter name Hne).
    by rewrite IH by lia.
Qed.

Lemma makedirs_go_fuel_enough (extra : nat) (name : string) (m : gmap string fnode) :
  makedirs_go (String.length name + extra) name m
  = makedirs_go (String.length name) name m.
Proof.
  induction extra as [|k IH]; [by rewrite Nat.add_0_r|].
  rewrite Nat.add_succ_r, makedirs_go_fuel by lia. exact IH.
Qed.

Lemma os_makedirs_existing (name : string) (s : state) :
  fs s !! name = Some FDir → os_makedirs name s = (Ok (), s).
Proof.
  intros H. unfold os_makedirs. rewrite makedirs_go_existing by done.
  by rewrite set_fs_const_id.
Qed.

Lemma os_makedirs_ok (name : string) (s s' : state) :
  os_makedirs name s = (Ok (), s') →
  fs s' !! name = Some FDir ∧
  (∀ p n, fs s !! p = Some n → fs s' !! p = Some n) ∧
  (∀ p data, fs s' !! p = Some (FFile data) → fs s !! p = Some (FFile data)) ∧
  requests s' = requests s ∧ failures s' = failures s ∧ stdout s' = stdout s.
Proof.
  unfold os_makedirs. destruct (makedirs_go _ _ _) as [m'|e] eqn:Hm; [|done].
  intros [= <-]. cbn. repeat split.
  - by eapply makedirs_go_dir.
  - intros p n. by eapply makedirs_go_preserves.
  - intros p data. by eapply makedirs_go_files.
Qed.

Lemma os_makedirs_raise (name : string) (s s' : state) (e : exn) :
  os_makedirs name s = (Raise e, s') → s' = s.
Proof.
  unfold os_makedirs. destruct (makedirs_go _ _ _); [done|]. by intros [= _ <-].
Qed.

End StoreFacts.

(** ** The worker, step by step *)

Module WorkerFacts.
Import PyStr PosixPath PyStrFacts Worker StoreFacts.

Lemma bind_run {A B} (m : M A) (f : A → M B) (s : state) :
  (m ≫= f) s = match m s with
               | (Ok a, s') => f a s'
               | (Raise e, s') => (Raise e, s')
               end.
Proof. reflexivity. Qed.

(** *** The probe *)

(** The remote size lines 140-143 arrive at: the integer in the
    [Content-Length] header, [None] when the header is absent or is no
    integer and when the request raises [URLError]; any other exception
    goes on. *)
Definition remote_size_of (ev : env) (url : string) : result (option Z) :=
  match http_head ev url with
  | Ok None => Ok None
  | Ok (Some l) => Ok (int_of_str l)
  | Raise e => if isinstance e URLError then Ok None else Raise e
  end.

Lemma probe_run (ev : env) (url : string) (s : state) :
  probe ev url s = (remote_size_of ev url, s).
Proof.
  unfold probe, try_except, get_remote_size, remote_size_of.
  rewrite bind_run. unfold urlopen_head.
  destruct (http_head ev url) as [[l|]|e]; cbn.
  - by destruct (int_of_str l).
  - done.
  - unfold caught_by. cbn [existsb]. rewrite orb_false_r.
    by destruct (isinstance e URLError).
Qed.

(** *** The resumability rule *)

(** [os.path.getsize] of an entry. *)
Definition node_size (ev : env) (n : fnode) : Z :=
  match n with
  | FFile data => Z.of_nat (String.length data)
  | FDir => dir_size ev
  end.

(** The rule in the words of the specification: something exists at the
    destination and either the remote size is unknown and the local size
    is positive, or the remote size is known and equals the local size. *)
Definition skip_rule (ev : env) (m : gmap string fnode) (output_path : string)
    (remote_size : option Z) : Prop :=
  ∃ n, m !! output_path = Some n ∧
       ((remote_size = None ∧ node_size ev n > 0) ∨
        (∃ r, remote_size = Some r ∧ r = node_size ev n)).

Lemma already_complete_run (ev : env) (output_path : string)
    (remote_size : option Z) (s : state) :
  ∃ b, already_complete ev output_path remote_size s = (Ok b, s) ∧
       (b = true ↔ skip_rule ev (fs s) output_path remote_size).
Proof.
  unfold already_complete, skip_rule. rewrite bind_run. unfold os_path_exists.
  destruct (fs s !! output_path) as [n|] eqn:Hn.
  - rewrite bool_decide_eq_true_2 by eauto. rewrite bind_run.
    unfold os_path_getsize. rewrite Hn.
    assert (Hsz : (match n with
                   | FFile data => (Ok (Z.of_nat (String.length data)), s)
                   | FDir => (Ok (dir_size ev), s)
                   end : result Z * state) = (Ok (node_size ev n), s)) by by destruct n.
    rewrite Hsz. clear Hsz.
    destruct remote_size as [r|].
    + rewrite (bool_decide_eq_false_2 (Some r = None)) by done. cbn [andb].
      rewrite (bool_decide_eq_true_2 (Some r ≠ None)) by done. cbn [andb].
      destruct (decide (Some (node_size ev n) = Some r)) as [He|He].
      * rewrite bool_decide_eq_true_2 by done. exists true. split; [done|].
        split; [|done]. intros _. exists n. split; [done|]. right. exists r.
        split; [done|congruence].
      * rewrite bool_decide_eq_false_2 by done. exists false. split; [done|].
        split; [done|]. intros (n' & [= <-] & [[? _]|(r' & [= <-] & Hr)]); [done|].
        congruence.
    + rewrite (bool_decide_eq_true_2 (None = None)) by done. cbn [andb].
      destruct (decide (node_size ev n > 0)) as [Hp|Hp].
      * rewrite bool_decide_eq_true_2 by done. exists true. split; [done|].
        split; [|done]. intros _. exists n. split; [done|]. by left.
      * rewrite bool_decide_eq_false_2 by done.
        rewrite (bool_decide_eq_false_2 (None ≠ None)) by (by intros ?). cbn [andb].
        exists false. split; [done|]. split; [done|].
        intros (n' & [= <-] & [[_ ?]|(r' & ? & _)]); done.
  - rewrite bool_decide_eq_false_2 by (by intros [? ?]).
    exists false. split; [done|]. split; [done|]. by intros (n & ? & _).
Qed.

Lemma skip_rule_dec (ev : env) (m : gmap string fnode) (output_path : string)
    (remote_size : option Z) :
  skip_rule ev m output_path remote_size ∨ ¬ skip_rule ev m output_path remote_size.
Proof.
  destruct (already_complete_run ev output_path remote_size (State m [] [] []))
    as ([] & _ & Hb); cbn in Hb.
  - left. by apply Hb.
  - right. intros H. by apply Hb in H.
Qed.

Lemma app_singleton_neq {A} (l : list A) (x : A) : l ++ [x] ≠ l.
Proof.
  intros H. assert (Hl : length (l ++ [x]) = length l) by by rewrite H.
  rewrite length_app in Hl. cbn in Hl. lia.
Qed.

(** *** The copy loop *)

Lemma append_data_nil (n : fnode) : append_data "" n = n.
Proof. destruct n; [|done]. cbn. by rewrite sapp_nil_r. Qed.

Lemma append_data_app (a b : string) (n : fnode) :
  append_data b (append_data a n) = append_data (a +:+ b) n.
Proof. destruct n; [|done]. cbn. by rewrite sapp_assoc. Qed.

(** The loop writes every chunk it reads in turn, then ends with the
    last read: normally, or with the exception that read raises. *)
Lemma copy_chunks_run (temp_path : string) (chunks : list string)
    (fault : option exn) (s : state) :
  Forall (λ c, is_empty c = false) chunks →
  copy_chunks temp_path chunks fault s =
  (match fault with Some e => Raise e | None => Ok () end,
   set_fs (alter (append_data (concat_s chunks)) temp_path) s).
Proof.
  intros Hne. revert s. induction Hne as [|chunk rest Hc _ IH]; intros s.
  - cbn [copy_chunks concat_s foldr].
    assert (alter (append_data "") temp_path (fs s) = fs s) as Hid.
    { apply alter_id. intros n _. apply append_data_nil. }
    replace (set_fs (alter (append_data "") temp_path) s) with s.
    + by destruct fault.
    + apply state_eq; [cbn; by rewrite Hid|done..].
  - cbn [copy_chunks]. rewrite Hc, bind_run. unfold handle_write at 1.
    rewrite IH. f_equal. apply state_eq; [|done..]. cbn.
    rewrite alter_alter_eq. apply alter_ext. intros n _. cbn.
    apply append_data_app.
Qed.

(** *** The guarded block *)

Lemma open_w_run (path : string) (s : state) :
  open_w path s = (Ok (), set_fs <[path := FFile ""]> s) ∨
  (∃ e, open_w path s = (Raise e, s) ∧ isinstance e OSError = true).
Proof.
  unfold open_w. repeat case_match; eauto; right; eexists; split; done.
Qed.

(** The state once the body [r] sent for [url] is in the staging file. *)
Definition staged (url temp_path : string) (r : response) (s : state) : state :=
  set_fs <[temp_path := FFile (resp_body r)]> (add_request url s).

(** [os.replace] of the staging file of [staged]. *)
Lemma replace_staged (url output_path temp_path : string) (r : response) (s : state) :
  os_replace temp_path output_path (staged url temp_path r s) =
  match fs (staged url temp_path r s) !! output_path with
  | Some FDir =>
      (Raise (rename_error IsADirectoryError 21 "Is a directory" temp_path output_path),
       staged url temp_path r s)
  | _ => (Ok (), set_fs (λ m, <[output_path := FFile (resp_body r)]> (delete temp_path m))
                        (staged url temp_path r s))
  end.
Proof.
  unfold os_replace. cbn [staged fs set_fs add_request]. by rewrite lookup_insert_eq.
Qed.

(** The guarded block, one step after the other. *)
Lemma transfer_run (ev : env) (url output_path temp_path : string)
    (remote_size : option Z) (s : state) :
  transfer ev url output_path temp_path remote_size s =
  match http_get ev url with
  | Raise e => (Raise e, add_request url s)
  | Ok r =>
      match open_w temp_path (add_request url s) with
      | (Raise e, s') => (Raise e, s')
      | (Ok _, _) =>
          match resp_fault r with
          | Some e => (Raise e, staged url temp_path r s)
          | None =>
              let downloaded_size := Z.of_nat (String.length (resp_body r)) in
              match remote_size with
              | Some expected =>
                  if bool_decide (downloaded_size ≠ expected)
                  then (Raise (size_mismatch expected downloaded_size),
                        staged url temp_path r s)
                  else os_replace temp_path output_path (staged url temp_path r s)
              | None => os_replace temp_path output_path (staged url temp_path r s)
              end
          end
      end
  end.
Proof.
  unfold transfer. rewrite bind_run. unfold urlopen_get at 1.
  destruct (http_get ev url) as [r|e]; [|done].
  rewrite bind_run.
  destruct (open_w_run temp_path (add_request url s)) as [->|(e & -> & _)]; [|done].
  rewrite bind_run, copy_chunks_run by apply chunks_go_nonempty.
  rewrite read_chunks_concat.
  assert (set_fs (alter (append_data (resp_body r)) temp_path)
            (set_fs <[temp_path := FFile ""]> (add_request url s))
          = staged url temp_path r s) as ->.
  { apply state_eq; [|done..]. cbn. by rewrite alter_insert_eq. }
  destruct (resp_fault r) as [e|]; [done|].
  rewrite bind_run. destruct remote_size as [expected|]; [|done].
  rewrite bind_run. unfold os_path_getsize.
  cbn [staged fs set_fs add_request]. rewrite lookup_insert_eq.
  by destruct (bool_decide _).
Qed.

(** The guarded block never turns the staging path into a directory. *)
Lemma transfer_staging_no_dir (ev : env) (url output_path temp_path : string)
    (remote_size : option Z) (s s' : state) (res : result ()) :
  output_path ≠ temp_path →
  fs s !! temp_path ≠ Some FDir →
  transfer ev url output_path temp_path remote_size s = (res, s') →
  fs s' !! temp_path ≠ Some FDir.
Proof.
  intros Hne Hdir. rewrite transfer_run.
  destruct (http_get ev url) as [r|e]; [|by intros [= _ <-]].
  destruct (open_w_run temp_path (add_request url s)) as [->|(e & -> & _)];
    [|by intros [= _ <-]].
  assert (Hst : fs (staged url temp_path r s) !! temp_path ≠ Some FDir).
  { cbn. by rewrite lookup_insert_eq. }
  assert (Hrep : os_replace temp_path output_path (staged url temp_path r s) = (res, s') →
                 fs s' !! temp_path ≠ Some FDir).
  { rewrite replace_staged. repeat case_match; intros [= _ <-]; try done;
      cbn; rewrite lookup_insert_ne, lookup_delete_eq by done; done. }
  destruct (resp_fault r); [by intros [= _ <-]|]. cbv zeta.
  destruct remote_size; [|done].
  destruct (bool_decide _); [by intros [= _ <-]|done].
Qed.

(** *** The handler *)

Lemma on_failure_run (region url temp_path : string) (exc : exn) (s : state) :
  fs s !! temp_path ≠ Some FDir →
  on_failure region url temp_path exc s =
  (Ok (), set_failures (λ l, l ++ [(region, url, exn_str exc)])
            (set_fs (delete temp_path) s)).
Proof.
  intros Hdir. unfold on_failure. rewrite bind_run. unfold os_path_exists.
  destruct (fs s !! temp_path) as [[data|]|] eqn:Hn; [|done|].
  - rewrite bool_decide_eq_true_2 by eauto. rewrite bind_run.
    unfold os_remove. by rewrite Hn.
  - rewrite bool_decide_eq_false_2 by (by intros [? ?]). rewrite bind_run. cbn.
    unfold append_failure. f_equal. apply state_eq; [|done..]. cbn.
    by rewrite delete_id.
Qed.

(** The three classes of the handler are [OSError] and two of its
    subclasses. *)
Lemma handler_catches (e : exn) :
  caught_by [URLError; OSError; TimeoutError] e = isinstance e OSError.
Proof. unfold caught_by, isinstance. by destruct (exn_type e). Qed.

(** *** Lines 152-175 *)

Lemma remove_stale_run {A} (temp_path : string) (k : M A) (s : state) :
  (present ← os_path_exists temp_path;
   (if present : bool then os_remove temp_path else mret ()) ;; k) s =
  match fs s !! temp_path with
  | Some FDir => (Raise (is_a_directory temp_path), s)
  | _ => k (set_fs (delete temp_path) s)
  end.
Proof.
  rewrite bind_run. unfold os_path_exists.
  destruct (fs s !! temp_path) as [[data|]|] eqn:Hn.
  - rewrite bool_decide_eq_true_2 by eauto. rewrite bind_run.
    unfold os_remove. by rewrite Hn.
  - rewrite bool_decide_eq_true_2 by eauto. rewrite bind_run.
    unfold os_remove. by rewrite Hn.
  - rewrite bool_decide_eq_false_2 by (by intros [? ?]). rewrite bind_run. cbn.
    f_equal. apply state_eq; [|done..]. cbn. by rewrite delete_id.
Qed.

Lemma fetch_run (ev : env) (region url output_path : string)
    (remote_size : option Z) (s : state) :
  let temp_path := output_path +:+ ".part" in
  fetch ev region url output_path remote_size s =
  match fs s !! temp_path with
  | Some FDir => (Raise (is_a_directory temp_path), s)
  | _ =>
      match transfer ev url output_path temp_path remote_size
                     (set_fs (delete temp_path) s) with
      | (Ok _, s3) => (Ok (), s3)
      | (Raise e, s3) =>
          if isinstance e OSError
          then (Ok (), set_failures (λ l, l ++ [(region, url, exn_str e)])
                         (set_fs (delete temp_path) s3))
          else (Raise e, s3)
      end
  end.
Proof.
  intros temp_path. unfold fetch. cbv zeta. fold temp_path.
  rewrite remove_stale_run.
  destruct (fs s !! temp_path) as [[data|]|] eqn:Hn; [|done|];
    (unfold try_except;
     destruct (transfer ev url output_path temp_path remote_size
                 (set_fs (delete temp_path) s)) as [[[]|e] s3] eqn:Ht; [done|];
     rewrite handler_catches; destruct (isinstance e OSError); [|done];
     apply on_failure_run;
     eapply transfer_staging_no_dir; [|  |exact Ht];
     [apply not_eq_sym, part_neq | cbn; by rewrite lookup_delete_eq]).
Qed.

(** A caught exception of the guarded block: the staging file is removed
    and one failure is appended. *)
Lemma fetch_caught (ev : env) (region url output_path : string)
    (remote_size : option Z) (s s3 : state) (e : exn) :
  fs s !! (output_path +:+ ".part") ≠ Some FDir →
  transfer ev url output_path (output_path +:+ ".part") remote_size
           (set_fs (delete (output_path +:+ ".part")) s) = (Raise e, s3) →
  isinstance e OSError = true →
  fetch ev region url output_path remote_size s =
  (Ok (), set_failures (λ l, l ++ [(region, url, exn_str e)])
            (set_fs (delete (output_path +:+ ".part")) s3)).
Proof.
  intros Hnd Ht He. rewrite fetch_run.
  destruct (fs s !! (output_path +:+ ".part")) as [[data|]|]; [|done|];
    by rewrite Ht, He.
Qed.

(** What the guarded block leaves untouched. *)
Lemma transfer_effects (ev : env) (url output_path temp_path : string)
    (remote_size : option Z) (s s' : state) (res : result ()) :
  output_path ≠ temp_path →
  transfer ev url output_path temp_path remote_size s = (res, s') →
  requests s' = requests s ++ [url] ∧ failures s' = failures s ∧
  stdout s' = stdout s ∧
  (∀ p, p ≠ output_path → p ≠ temp_path → fs s' !! p = fs s !! p) ∧
  (∀ p, fs s !! p = Some FDir → fs s' !! p = Some FDir).
Proof.
  intros Hne. rewrite transfer_run.
  destruct (http_get ev url) as [r|e]; [|by intros [= _ <-]].
  destruct (open_w_run temp_path (add_request url s)) as [Ho|(e & -> & _)];
    [|by intros [= _ <-]].
  rewrite Ho.
  assert (Hdir : ∀ p, fs s !! p = Some FDir → p ≠ temp_path).
  { intros p Hp ->. unfold open_w in Ho. cbn in Ho. by rewrite Hp in Ho. }
  assert (Hst : ∀ s2, staged url temp_path r s = s2 →
    requests s2 = requests s ++ [url] ∧ failures s2 = failures s ∧
    stdout s2 = stdout s ∧
    (∀ p, p ≠ output_path → p ≠ temp_path → fs s2 !! p = fs s !! p) ∧
    (∀ p, fs s !! p = Some FDir → fs s2 !! p = Some FDir)).
  { intros s2 <-. cbn. repeat split.
    - intros p _ Hp. by rewrite lookup_insert_ne.
    - intros p Hp. rewrite lookup_insert_ne; [done|]. intros ->. by eapply Hdir. }
  assert (Hrep : os_replace temp_path output_path (staged url temp_path r s) = (res, s') →
    requests s' = requests s ++ [url] ∧ failures s' = failures s ∧
    stdout s' = stdout s ∧
    (∀ p, p ≠ output_path → p ≠ temp_path → fs s' !! p = fs s !! p) ∧
    (∀ p, fs s !! p = Some FDir → fs s' !! p = Some FDir)).
  { rewrite replace_staged.
    destruct (fs (staged url temp_path r s) !! output_path) as [[data|]|] eqn:Hout;
      intros [= _ <-]; try (by apply Hst); cbn; repeat split.
    - intros p Hp1 Hp2. by rewrite lookup_insert_ne, lookup_delete_ne, lookup_insert_ne.
    - intros p Hp. pose proof (Hdir p Hp).
      cbn in Hout. rewrite lookup_insert_ne in Hout by done.
      rewrite lookup_insert_ne, lookup_delete_ne, lookup_insert_ne; congruence.
    - intros p Hp1 Hp2. by rewrite lookup_insert_ne, lookup_delete_ne, lookup_insert_ne.
    - intros p Hp. pose proof (Hdir p Hp).
      cbn in Hout. rewrite lookup_insert_ne in Hout by done.
      rewrite lookup_insert_ne, lookup_delete_ne, lookup_insert_ne; congruence. }
  destruct (resp_fault r); [intros [= _ <-]; by apply Hst|]. cbv zeta.
  destruct remote_size; [|done].
  destruct (bool_decide _); [intros [= _ <-]; by apply Hst|done].
Qed.

(** What lines 152-175 leave untouched, and what they add. *)
Lemma fetch_effects (ev : env) (region url output_path : string)
    (remote_size : option Z) (s s' : state) (res : result ()) :
  fetch ev region url output_path remote_size s = (res, s') →
  stdout s' = stdout s ∧
  (∀ p, p ≠ output_path → p ≠ output_path +:+ ".part" → fs s' !! p = fs s !! p) ∧
  (∀ p, fs s !! p = Some FDir → fs s' !! p = Some FDir) ∧
  (failures s' = failures s ∨
   ∃ reason, failures s' = failures s ++ [(region, url, reason)] ∧ res = Ok ()) ∧
  ((s' = s ∧ fs s !! (output_path +:+ ".part") = Some FDir ∧
    res = Raise (is_a_directory (output_path +:+ ".part"))) ∨
   (requests s' = requests s ++ [url] ∧
    fs s !! (output_path +:+ ".part") ≠ Some FDir)).
Proof.
  rewrite fetch_run. set (temp_path := output_path +:+ ".part").
  assert (Hne : output_path ≠ temp_path) by apply not_eq_sym, part_neq.
  assert (Hgo : fs s !! temp_path ≠ Some FDir →
    match transfer ev url output_path temp_path remote_size
                   (set_fs (delete temp_path) s) with
    | (Ok _, s3) => (Ok (), s3)
    | (Raise e, s3) =>
        if isinstance e OSError
        then (Ok (), set_failures (λ l, l ++ [(region, url, exn_str e)])
                       (set_fs (delete temp_path) s3))
        else (Raise e, s3)
    end = (res, s') →
    stdout s' = stdout s ∧
    (∀ p, p ≠ output_path → p ≠ temp_path → fs s' !! p = fs s !! p) ∧
    (∀ p, fs s !! p = Some FDir → fs s' !! p = Some FDir) ∧
    (failures s' = failures s ∨
     ∃ reason, failures s' = failures s ++ [(region, url, reason)] ∧ res = Ok ()) ∧
    ((s' = s ∧ fs s !! temp_path = Some FDir ∧ res = Raise (is_a_directory temp_path)) ∨
     (requests s' = requests s ++ [url] ∧ fs s !! temp_path ≠ Some FDir))).
  { intros Hnd.
    destruct (transfer ev url output_path temp_path remote_size
                (set_fs (delete temp_path) s)) as [r s3] eqn:Ht.
    destruct (transfer_effects _ _ _ _ _ _ _ _ Hne Ht) as (Hr & Hf & Ho & Hfr & Hd).
    cbn in Hr, Hf, Ho, Hfr, Hd.
    assert (Hd' : ∀ p, fs s !! p = Some FDir → fs s3 !! p = Some FDir).
    { intros p Hp. apply Hd. rewrite lookup_delete_ne; [done|]. by intros <-. }
    assert (Hfr' : ∀ p, p ≠ output_path → p ≠ temp_path → fs s3 !! p = fs s !! p).
    { intros p H1 H2. by rewrite Hfr, lookup_delete_ne. }
    destruct r as [[]|e]; [intros [= <- <-]; by eauto 10|].
    destruct (isinstance e OSError); intros [= <- <-]; [|by eauto 10].
    cbn. repeat split.
    - done.
    - intros p H1 H2. by rewrite lookup_delete_ne, Hfr'.
    - intros p Hp. rewrite lookup_delete_ne; [by apply Hd'|]. by intros <-.
    - right. eexists. by rewrite Hf.
    - right. by split. }
  destruct (fs s !! temp_path) as [[data|]|] eqn:Hn.
  - by apply Hgo.
  - intros [= <- <-]. repeat split; eauto.
  - by apply Hgo.
Qed.

(** *** [download_task] *)

Section Task.
Variable ev : env.
Variable t : task.
Variables s s1 : state.

Let out := output_path t.

Lemma download_task_makedirs_raise (e : exn) :
  os_makedirs (dirname out) s = (Raise e, s1) →
  download_task ev t s = (Raise e, s1).
Proof. intros H. unfold download_task. fold out. by rewrite bind_run, H. Qed.

Lemma download_task_probe_raise (e : exn) :
  os_makedirs (dirname out) s = (Ok (), s1) →
  remote_size_of ev (url t) = Raise e →
  download_task ev t s = (Raise e, s1).
Proof.
  intros H Hp. unfold download_task. fold out.
  by rewrite bind_run, H, bind_run, probe_run, Hp.
Qed.

Lemma download_task_skip (remote_size : option Z) :
  os_makedirs (dirname out) s = (Ok (), s1) →
  remote_size_of ev (url t) = Ok remote_size →
  skip_rule ev (fs s1) out remote_size →
  download_task ev t s = (Ok (), s1).
Proof.
  intros H Hp Hskip. unfold download_task. fold out.
  rewrite bind_run, H, bind_run, probe_run, Hp, bind_run.
  destruct (already_complete_run ev out remote_size s1) as (b & -> & Hb).
  apply Hb in Hskip. by subst b.
Qed.

Lemma download_task_fetch (remote_size : option Z) :
  os_makedirs (dirname out) s = (Ok (), s1) →
  remote_size_of ev (url t) = Ok remote_size →
  ¬ skip_rule ev (fs s1) out remote_size →
  download_task ev t s = fetch ev (region t) (url t) out remote_size s1.
Proof.
  intros H Hp Hskip. unfold download_task. fold out.
  rewrite bind_run, H, bind_run, probe_run, Hp, bind_run.
  destruct (already_complete_run ev out remote_size s1) as (b & -> & Hb).
  destruct b; [|done]. by destruct Hskip; apply Hb.
Qed.

End Task.

End WorkerFacts.

(** ** The worker: skip, failure handling, directories *)

Module WorkerClaims.
Import PyStr PosixPath PyStrFacts Worker StoreFacts WorkerFacts Worlds.

(** C2. Once the parent directory is there and the probe has answered, the
    worker returns without any transfer exactly when something exists at
    the destination and either the remote size is unknown and the local
    size is positive, or the remote size is known and equals the local
    size. Otherwise it goes on to lines 152-175: it removes a stale staging
    file and issues the GET request. *)
Theorem skip_iff_resumability_rule (ev : env) (t : task) (s s1 : state)
    (remote_size : option Z) :
  os_makedirs (dirname (output_path t)) s = (Ok (), s1) →
  remote_size_of ev (url t) = Ok remote_size →
  (skip_rule ev (fs s1) (output_path t) remote_size ↔
   ∃ s', download_task ev t s = (Ok (), s') ∧ requests s' = requests s) ∧
  (skip_rule ev (fs s1) (output_path t) remote_size →
   download_task ev t s = (Ok (), s1)) ∧
  (¬ skip_rule ev (fs s1) (output_path t) remote_size →
   download_task ev t s = fetch ev (region t) (url t) (output_path t) remote_size s1 ∧
   (fs s1 !! (output_path t +:+ ".part") ≠ Some FDir →
    requests (download_task ev t s).2 = requests s ++ [url t])).
Proof.
  intros Hmk Hp.
  destruct (os_makedirs_ok _ _ _ Hmk) as (_ & _ & _ & Hreq & _).
  assert (Hno : ¬ skip_rule ev (fs s1) (output_path t) remote_size →
    download_task ev t s = fetch ev (region t) (url t) (output_path t) remote_size s1 ∧
    (fs s1 !! (output_path t +:+ ".part") ≠ Some FDir →
     requests (download_task ev t s).2 = requests s ++ [url t])).
  { intros Hn. pose proof (download_task_fetch ev t s s1 remote_size Hmk Hp Hn) as Hf.
    split; [done|]. intros Hnd. rewrite Hf.
    destruct (fetch ev (region t) (url t) (output_path t) remote_size s1)
      as [res s'] eqn:He.
    destruct (fetch_effects _ _ _ _ _ _ _ _ He) as (_ & _ & _ & _ & [(_ & ? & _)|[Hr _]]);
      [done|]. cbn. by rewrite Hr, Hreq. }
  split; [split|split].
  - intros Hs. exists s1. split; [|done]. by eapply download_task_skip.
  - intros (s' & Hd & Hr).
    destruct (skip_rule_dec ev (fs s1) (output_path t) remote_size) as [|Hn]; [done|].
    destruct (Hno Hn) as [Hf Hq]. rewrite Hd in Hf. symmetry in Hf.
    destruct (fetch_effects _ _ _ _ _ _ _ _ Hf) as (_ & _ & _ & _ & [(_ & _ & ?)|[Hr' _]]);
      [done|]. rewrite Hr, Hreq in Hr'. by apply symmetry, app_singleton_neq in Hr'.
  - intros Hs. by eapply download_task_skip.
  - exact Hno.
Qed.

Lemma skip_iff_resumability_rule_witness :
  download_task five_bytes tile_task complete_store = (Ok (), complete_store).
Proof.
  destruct (skip_iff_resumability_rule five_bytes tile_task complete_store
              complete_store (Some 5)) as (_ & H & _).
  - vm_compute. reflexivity.
  - reflexivity.
  - apply H. exists (FFile "12345"). split; [reflexivity|].
    right. exists 5. split; reflexivity.
Defined.

(** *** Failures inside the guarded block *)

(** After [os.makedirs] the staging file can be opened. *)
Lemma open_w_staging (output_path url : string) (s s1 : state) :
  os_makedirs (dirname output_path) s = (Ok (), s1) →
  fs s1 !! (output_path +:+ ".part") ≠ Some FDir →
  open_w (output_path +:+ ".part")
         (add_request url (set_fs (delete (output_path +:+ ".part")) s1))
  = (Ok (), set_fs <[output_path +:+ ".part" := FFile ""]>
              (add_request url (set_fs (delete (output_path +:+ ".part")) s1))).
Proof.
  intros Hmk Hnd. destruct (os_makedirs_ok _ _ _ Hmk) as (Hdir & _).
  unfold open_w. cbn [fs set_fs add_request].
  rewrite lookup_delete_eq, dirname_part.
  destruct (is_empty (dirname output_path)); [done|].
  rewrite lookup_delete_ne; [by rewrite Hdir|]. intros Heq. by rewrite Heq in Hnd.
Qed.

(** C3, as the code has it. When a step of the guarded block (the GET
    request, opening and writing the staging file, the size check, the
    rename) raises an exception of one of the classes [URLError],
    [OSError] ([IOError]) and [TimeoutError], the worker removes the
    staging file, appends the one failure [(region, url, str(exc))] and
    returns normally. *)
Theorem guarded_failure_is_recorded (ev : env) (t : task) (s s1 s3 : state)
    (remote_size : option Z) (e : exn) :
  os_makedirs (dirname (output_path t)) s = (Ok (), s1) →
  remote_size_of ev (url t) = Ok remote_size →
  ¬ skip_rule ev (fs s1) (output_path t) remote_size →
  fs s1 !! (output_path t +:+ ".part") ≠ Some FDir →
  transfer ev (url t) (output_path t) (output_path t +:+ ".part") remote_size
           (set_fs (delete (output_path t +:+ ".part")) s1) = (Raise e, s3) →
  caught_by [URLError; OSError; TimeoutError] e = true →
  ∃ s', download_task ev t s = (Ok (), s') ∧
        fs s' !! (output_path t +:+ ".part") = None ∧
        (∀ p, p ≠ output_path t +:+ ".part" → fs s' !! p = fs s3 !! p) ∧
        failures s' = failures s ++ [(region t, url t, exn_str e)] ∧
        requests s' = requests s ++ [url t].
Proof.
  intros Hmk Hp Hn Hnd Ht Hc. rewrite handler_catches in Hc.
  destruct (os_makedirs_ok _ _ _ Hmk) as (_ & _ & _ & Hreq & Hfail & _).
  assert (Hne : output_path t ≠ output_path t +:+ ".part") by apply not_eq_sym, part_neq.
  destruct (transfer_effects _ _ _ _ _ _ _ _ Hne Ht) as (Hr & Hf & _).
  cbn in Hr, Hf.
  rewrite (download_task_fetch ev t s s1 remote_size Hmk Hp Hn).
  rewrite (fetch_caught _ _ _ _ _ _ _ _ Hnd Ht Hc).
  eexists. split; [reflexivity|]. cbn. rewrite Hf, Hr, Hfail, Hreq.
  split; [apply lookup_delete_eq|]. split; [|done].
  intros p Hp'. by rewrite lookup_delete_ne.
Qed.

Lemma guarded_failure_is_recorded_witness :
  ∃ s', download_task not_found tile_task (State ∅ [] [] []) = (Ok (), s') ∧
        fs s' !! "o/A_x.tif.part" = None ∧
        (∀ p, p ≠ "o/A_x.tif.part" → fs s' !! p = ({["o" := FDir]} : gmap string fnode) !! p) ∧
        failures s' = [("A", "http://h/x.tif", "HTTP Error 404: Not Found")] ∧
        requests s' = ["http://h/x.tif"].
Proof.
  assert (H := guarded_failure_is_recorded not_found tile_task (State ∅ [] [] [])
           (State {["o" := FDir]} [] [] [])
           (State {["o" := FDir]} ["http://h/x.tif"] [] []) None
           (Exn HTTPError "HTTP Error 404: Not Found")).
  apply H.
  - vm_compute. reflexivity.
  - reflexivity.
  - intros (n & Hn & _). vm_compute in Hn. discriminate.
  - vm_compute. discriminate.
  - vm_compute. reflexivity.
  - reflexivity.
Defined.

(** C3, as stated, fails at the staging removal: when the staging path is
    a directory, [os.remove] raises before the guarded block is entered,
    the exception leaves the worker and no failure is recorded. *)
Lemma staging_removal_failure_escapes :
  download_task not_found tile_task
    (State (<["o/A_x.tif.part" := FDir]> {["o" := FDir]}) [] [] [])
  = (Raise (Exn IsADirectoryError "[Errno 21] Is a directory: 'o/A_x.tif.part'"),
     State (<["o/A_x.tif.part" := FDir]> {["o" := FDir]}) [] [] []).
Proof. vm_compute. reflexivity. Qed.

(** *** Size mismatch *)

(** C4, as the code has it. When the transfer completes and the size of
    the staging file differs from the known remote size, the worker
    removes the staging file, does not touch the destination (a file that
    was there is still there, none is put there) and appends the one
    failure whose reason is the size mismatch; it issues no second
    request. *)
Theorem size_mismatch_is_failure (ev : env) (t : task) (s s1 : state)
    (expected : Z) (r : response) :
  os_makedirs (dirname (output_path t)) s = (Ok (), s1) →
  remote_size_of ev (url t) = Ok (Some expected) →
  ¬ skip_rule ev (fs s1) (output_path t) (Some expected) →
  fs s1 !! (output_path t +:+ ".part") ≠ Some FDir →
  http_get ev (url t) = Ok r →
  resp_fault r = None →
  Z.of_nat (String.length (resp_body r)) ≠ expected →
  ∃ s', download_task ev t s = (Ok (), s') ∧
        fs s' !! (output_path t +:+ ".part") = None ∧
        fs s' !! output_path t = fs s1 !! output_path t ∧
        (∀ data, fs s' !! output_path t = Some (FFile data) ↔
                 fs s !! output_path t = Some (FFile data)) ∧
        failures s' = failures s ++
          [(region t, url t,
            "size mismatch: expected " +:+ str_of_Z expected +:+ " got "
            +:+ str_of_Z (Z.of_nat (String.length (resp_body r))))] ∧
        requests s' = requests s ++ [url t].
Proof.
  intros Hmk Hp Hn Hnd Hget Hfault Hsize.
  set (temp_path := output_path t +:+ ".part") in *.
  assert (Hne : output_path t ≠ temp_path) by apply not_eq_sym, part_neq.
  assert (Ht : transfer ev (url t) (output_path t) temp_path (Some expected)
                 (set_fs (delete temp_path) s1)
               = (Raise (size_mismatch expected (Z.of_nat (String.length (resp_body r)))),
                  staged (url t) temp_path r (set_fs (delete temp_path) s1))).
  { rewrite transfer_run, Hget. unfold temp_path.
    rewrite (open_w_staging _ _ _ _ Hmk Hnd), Hfault. cbv zeta.
    by rewrite bool_decide_eq_true_2. }
  destruct (os_makedirs_ok _ _ _ Hmk) as (_ & Hpres & Hfiles & Hreq & Hfail & _).
  rewrite (download_task_fetch ev t s s1 (Some expected) Hmk Hp Hn).
  rewrite (fetch_caught _ _ _ _ _ _ _ _ Hnd Ht eq_refl).
  eexists. split; [reflexivity|]. cbn. fold temp_path. rewrite Hfail, Hreq.
  assert (Hout : delete temp_path
                   (<[temp_path := FFile (resp_body r)]> (delete temp_path (fs s1)))
                 !! output_path t = fs s1 !! output_path t).
  { by rewrite lookup_delete_ne, lookup_insert_ne, lookup_delete_ne. }
  split; [apply lookup_delete_eq|]. split; [exact Hout|]. split; [|done].
  intros data. rewrite Hout. split; [apply Hfiles|apply Hpres].
Qed.

Lemma size_mismatch_is_failure_witness :
  ∃ s', download_task short_body tile_task stale_store = (Ok (), s') ∧
        fs s' !! "o/A_x.tif.part" = None ∧
        fs s' !! "o/A_x.tif" = fs stale_store !! "o/A_x.tif" ∧
        (∀ data, fs s' !! "o/A_x.tif" = Some (FFile data) ↔
                 fs stale_store !! "o/A_x.tif" = Some (FFile data)) ∧
        failures s' = [("A", "http://h/x.tif", "size mismatch: expected 7 got 5")] ∧
        requests s' = ["http://h/x.tif"].
Proof.
  assert (H := size_mismatch_is_failure short_body tile_task stale_store stale_store 7
           (Response "12345" None)).
  apply H.
  - vm_compute. reflexivity.
  - reflexivity.
  - intros (n & Hn & [[? _]|(r' & [= <-] & Hr)]); [done|].
    vm_compute in Hn. injection Hn as <-. vm_compute in Hr. discriminate.
  - vm_compute. discriminate.
  - reflexivity.
  - reflexivity.
  - vm_compute. discriminate.
Defined.

(** C4, as stated, fails when a file is already at the destination: after
    the size mismatch the older file is still there. *)
Lemma size_mismatch_keeps_old_file :
  download_task short_body tile_task stale_store
  = (Ok (),
     State (<["o/A_x.tif" := FFile "old"]> {["o" := FDir]})
           ["http://h/x.tif"]
           [("A", "http://h/x.tif", "size mismatch: expected 7 got 5")] []) ∧
  fs (download_task short_body tile_task stale_store).2 !! "o/A_x.tif"
  = Some (FFile "old").
Proof. split; vm_compute; reflexivity. Qed.

(** *** The probe *)

(** A probe that raises [URLError] (or [HTTPError]) counts as an unknown
    size. *)
Lemma probe_urlerror_is_unknown (ev : env) (url : string) (e : exn) :
  http_head ev url = Raise e → isinstance e URLError = true →
  remote_size_of ev url = Ok None.
Proof. intros H He. unfold remote_size_of. by rewrite H, He. Qed.

(** Any other exception of the probe leaves the worker, before the skip
    check and before any download. *)
Lemma probe_other_error_escapes (ev : env) (t : task) (s s1 : state) (e : exn) :
  os_makedirs (dirname (output_path t)) s = (Ok (), s1) →
  http_head ev (url t) = Raise e → isinstance e URLError = false →
  download_task ev t s = (Raise e, s1).
Proof.
  intros Hmk H He. eapply download_task_probe_raise; [done|].
  unfold remote_size_of. by rewrite H, He.
Qed.

(** C7. The handler of the probe names [URLError] only, where the handler
    of the download names [URLError], [IOError] and [TimeoutError]: a probe
    that times out is not taken as an unknown size, its exception leaves
    the worker, and neither the skip check nor the download is reached. *)
Theorem probe_timeout_escapes :
  download_task probe_times_out tile_task (State ∅ [] [] [])
  = (Raise (Exn TimeoutError "timed out"), State {["o" := FDir]} [] [] []) ∧
  caught_by [URLError] (Exn TimeoutError "timed out") = false ∧
  caught_by [URLError; OSError; TimeoutError] (Exn TimeoutError "timed out") = true.
Proof. repeat split; vm_compute; reflexivity. Qed.

(** *** The parent directory *)

(** C10. The worker creates the parent directory of the destination
    first: when that fails the worker fails with it; when it succeeds the
    directory is there when the worker ends, whether the task was skipped,
    downloaded, recorded as a failure or ended by an exception, and what
    existed elsewhere than at the destination and the staging path is as
    it was. A directory that exists already is left as it is. *)
Theorem parent_directory_is_created (ev : env) (t : task) (s : state) :
  (∀ e s1, os_makedirs (dirname (output_path t)) s = (Raise e, s1) →
           download_task ev t s = (Raise e, s)) ∧
  (∀ s1, os_makedirs (dirname (output_path t)) s = (Ok (), s1) →
         fs (download_task ev t s).2 !! dirname (output_path t) = Some FDir ∧
         ∀ p n, fs s !! p = Some n → p ≠ output_path t →
                p ≠ output_path t +:+ ".part" →
                fs (download_task ev t s).2 !! p = Some n) ∧
  (fs s !! dirname (output_path t) = Some FDir →
   os_makedirs (dirname (output_path t)) s = (Ok (), s)).
Proof.
  split; [|split].
  - intros e s1 H. rewrite (os_makedirs_raise _ _ _ _ H) in H.
    by apply download_task_makedirs_raise.
  - intros s1 Hmk. destruct (os_makedirs_ok _ _ _ Hmk) as (Hdir & Hpres & _).
    destruct (remote_size_of ev (url t)) as [remote_size|e] eqn:Hp.
    + destruct (skip_rule_dec ev (fs s1) (output_path t) remote_size) as [Hs|Hn].
      * rewrite (download_task_skip ev t s s1 remote_size Hmk Hp Hs). cbn. eauto.
      * rewrite (download_task_fetch ev t s s1 remote_size Hmk Hp Hn).
        destruct (fetch ev (region t) (url t) (output_path t) remote_size s1)
          as [res s'] eqn:Hf.
        destruct (fetch_effects _ _ _ _ _ _ _ _ Hf) as (_ & Hfr & Hd & _).
        cbn. split; [by apply Hd|]. intros p n Hn' H1 H2. rewrite Hfr by done. eauto.
    + rewrite (download_task_probe_raise ev t s s1 e Hmk Hp). cbn. eauto.
  - apply os_makedirs_existing.
Qed.

Lemma parent_directory_is_created_witness :
  fs (download_task not_found tile_task (State ∅ [] [] [])).2 !! "o" = Some FDir.
Proof.
  destruct (parent_directory_is_created not_found tile_task (State ∅ [] [] []))
    as (_ & H & _).
  destruct (H (State {["o" := FDir]} [] [] [])) as [Hdir _].
  - vm_compute. reflexivity.
  - exact Hdir.
Defined.

(** A task that fails leaves the directory it created, with nothing in
    it. *)
Example failed_task_leaves_empty_directory :
  download_task not_found tile_task (State ∅ [] [] [])
  = (Ok (), State {["o" := FDir]} ["http://h/x.tif"]
                  [("A", "http://h/x.tif", "HTTP Error 404: Not Found")] []).
Proof. vm_compute. reflexivity. Qed.

End WorkerClaims.

(** ** The report *)

Module ReportFacts.
Import PyStr PosixPath PyStrFacts Orchestrator StoreFacts WorkerFacts Worlds.

(** The text of the failure log: one record per failure, in order. *)
Definition log_text (l : list failure) : string := concat_s (log_line <$> l).

Lemma write_failures_run (path : string) (l : list failure) (s : state) :
  write_failures path l s =
  (Ok (), set_fs (alter (append_data (log_text l)) path) s).
Proof.
  revert s. induction l as [|f l IH]; intros s.
  - cbn. f_equal. apply state_eq; [|done..]. cbn. symmetry.
    apply alter_id. intros n _. apply append_data_nil.
  - cbn [write_failures]. rewrite bind_run. unfold handle_write at 1.
    rewrite IH. f_equal. apply state_eq; [|done..]. cbn.
    rewrite alter_alter_eq. apply alter_ext. intros n _. cbn.
    apply append_data_app.
Qed.

(** The summary line of a run with failures. *)
Definition summary (a : args) (l : list failure) : string :=
  "Finished with " +:+ str_of_Z (Z.of_nat (length l))
  +:+ " failures. See " +:+ log_file a +:+ ".".

(** Lines 194-200, one step after the other. *)
Lemma report_run (a : args) (s : state) :
  report a s =
  if bool_decide (failures s = []) then
    (Ok (), add_stdout "Download completed without failures." s)
  else
    match open_w (log_file a) s with
    | (Raise e, s') => (Raise e, s')
    | (Ok _, _) =>
        (Ok (), add_stdout (summary a (failures s))
                  (set_fs <[log_file a := FFile (log_text (failures s))]> s))
    end.
Proof.
  unfold report. rewrite bind_run. unfold get_failures.
  destruct (bool_decide (failures s = [])); [done|]. cbn [negb].
  rewrite bind_run.
  destruct (open_w_run (log_file a) s) as [->|(e & -> & _)]; [|done].
  rewrite bind_run, write_failures_run. unfold print, summary. f_equal.
  apply state_eq; [|done..]. cbn. by rewrite alter_insert_eq.
Qed.

(** What [main] does before the report: resolution, the pool, the missing
    entries. *)
Definition gather (ev : env) (a : args) (src : node) : M unit :=
  collected ← lift (collect_tasks (source_root a) (output_root a) src);
  new_failures ;;
  executor ev (threads a) collected.1 ;;
  (if negb (bool_decide (collected.2 = [])) then add_missing collected.2 else mret ()).

Lemma main_gather (ev : env) (a : args) (src : node) (s : state) :
  main ev a src s = (gather ev a src ;; report a) s.
Proof.
  unfold main, gather. rewrite !bind_run. unfold lift.
  destruct (collect_tasks _ _ _) as [collected|e]; [|done].
  rewrite !bind_run. unfold new_failures.
  rewrite !bind_run.
  destruct (executor ev (threads a) collected.1 _) as [[[]|e] s1]; [|done].
  rewrite !bind_run. by destruct (if negb _ then _ else _) as [[[]|e] s2].
Qed.

(** C5, as the code has it. When a run ends with failures, the log file
    holds exactly one record per failure, in order (region, TAB,
    identifier, TAB, reason, LF), whatever it held before. When it ends
    without failure the report does not touch the file store: the log file
    is neither written nor removed. *)
Theorem failure_log_after_run (ev : env) (a : args) (src : node) (s s' : state) :
  main ev a src s = (Ok (), s') →
  ∃ sg, gather ev a src s = (Ok (), sg) ∧ failures s' = failures sg ∧
        (failures s' ≠ [] →
         fs s' = <[log_file a := FFile (log_text (failures s'))]> (fs sg)) ∧
        (failures s' = [] → fs s' = fs sg).
Proof.
  rewrite main_gather, bind_run.
  destruct (gather ev a src s) as [[[]|e] sg]; [|done].
  rewrite report_run. intros H. exists sg. split; [done|].
  destruct (decide (failures sg = [])) as [He|Hne].
  - rewrite bool_decide_eq_true_2 in H by done. injection H as <-. cbn.
    split; [done|]. split; [by intros ?|done].
  - rewrite bool_decide_eq_false_2 in H by done.
    destruct (open_w_run (log_file a) sg) as [Ho|(e & Ho & _)]; rewrite Ho in H; [|done].
    injection H as <-. cbn. split; [done|]. split; [done|by intros ?].
Qed.

Lemma failure_log_after_run_witness :
  ∃ sg, gather five_bytes default_args one_missing old_log = (Ok (), sg) ∧
        failures after_one_missing = failures sg ∧
        (failures after_one_missing ≠ [] →
         fs after_one_missing
         = <[log_file default_args := FFile (log_text (failures after_one_missing))]>
             (fs sg)) ∧
        (failures after_one_missing = [] → fs after_one_missing = fs sg).
Proof.
  apply (failure_log_after_run five_bytes default_args one_missing old_log
           after_one_missing).
  vm_compute. reflexivity.
Defined.

(** C5, as stated, fails for a run without failure that finds the log of
    an earlier run: the file is still there, with its old content. *)
Lemma clean_run_keeps_old_log :
  main five_bytes default_args (Dir []) old_log
  = (Ok (), State (fs old_log) [] [] ["Download completed without failures."]) ∧
  failures (main five_bytes default_args (Dir []) old_log).2 = [] ∧
  fs (main five_bytes default_args (Dir []) old_log).2 !! "download_failures.log"
  = Some (FFile (log_line ("A", "http://h/x.tif", "timed out"))).
Proof.
  split; [|split]; vm_compute; reflexivity.
Qed.

End ReportFacts.

(** ** Running the pipeline again *)

Module RerunFacts.
Import PyStr PosixPath PyStrFacts Orchestrator StoreFacts WorkerFacts ReportFacts Worlds.

(** A guarded block that ends normally has put the whole body at the
    destination, and the body has the announced size. *)
Lemma transfer_ok (ev : env) (url output_path temp_path : string)
    (remote_size : option Z) (s s' : state) :
  transfer ev url output_path temp_path remote_size s = (Ok (), s') →
  ∃ r, http_get ev url = Ok r ∧
       (∀ expected, remote_size = Some expected →
                    Z.of_nat (String.length (resp_body r)) = expected) ∧
       fs s' !! output_path = Some (FFile (resp_body r)).
Proof.
  rewrite transfer_run. destruct (http_get ev url) as [r|e]; [|done].
  destruct (open_w_run temp_path (add_request url s)) as [->|(e & -> & _)]; [|done].
  destruct (resp_fault r); [done|]. cbv zeta.
  assert (Hrep : os_replace temp_path output_path (staged url temp_path r s) = (Ok (), s') →
                 fs s' !! output_path = Some (FFile (resp_body r))).
  { rewrite replace_staged. repeat case_match; intros [= <-]; cbn;
      by rewrite lookup_insert_eq. }
  intros H. exists r. split; [done|].
  destruct remote_size as [expected|].
  - destruct (decide (Z.of_nat (String.length (resp_body r)) = expected)) as [He|He].
    + rewrite bool_decide_eq_false_2 in H by (by intros ?).
      split; [by intros ? [= <-]|by apply Hrep].
    + by rewrite bool_decide_eq_true_2 in H.
  - split; [done|by apply Hrep].
Qed.

(** Lines 152-175 that end normally and record no failure have put the
    whole body at the destination. *)
Lemma fetch_completes (ev : env) (region url output_path : string)
    (remote_size : option Z) (s s' : state) :
  fetch ev region url output_path remote_size s = (Ok (), s') →
  failures s' = failures s →
  ∃ r, http_get ev url = Ok r ∧
       (∀ expected, remote_size = Some expected →
                    Z.of_nat (String.length (resp_body r)) = expected) ∧
       fs s' !! output_path = Some (FFile (resp_body r)).
Proof.
  rewrite fetch_run. set (temp_path := output_path +:+ ".part").
  assert (Hne : output_path ≠ temp_path) by apply not_eq_sym, part_neq.
  assert (Hgo :
    match transfer ev url output_path temp_path remote_size
                   (set_fs (delete temp_path) s) with
    | (Ok _, s3) => (Ok (), s3)
    | (Raise e, s3) =>
        if isinstance e OSError
        then (Ok (), set_failures (λ l, l ++ [(region, url, exn_str e)])
                       (set_fs (delete temp_path) s3))
        else (Raise e, s3)
    end = (Ok (), s') →
    failures s' = failures s →
    ∃ r, http_get ev url = Ok r ∧
         (∀ expected, remote_size = Some expected →
                      Z.of_nat (String.length (resp_body r)) = expected) ∧
         fs s' !! output_path = Some (FFile (resp_body r))).
  { destruct (transfer ev url output_path temp_path remote_size
                (set_fs (delete temp_path) s)) as [[[]|e] s3] eqn:Ht.
    - intros [= <-] _. by eapply transfer_ok.
    - destruct (transfer_effects _ _ _ _ _ _ _ _ Hne Ht) as (_ & Hf & _).
      destruct (isinstance e OSError); [|done].
      intros [= <-]. cbn. rewrite Hf. cbn. intros H.
      by apply app_singleton_neq in H. }
  destruct (fs s !! temp_path) as [[data|]|]; [exact Hgo|done|exact Hgo].
Qed.

(** What a task leaves untouched, and what it adds. *)
Lemma download_task_effects (ev : env) (t : task) (s s' : state) (res : result ()) :
  download_task ev t s = (res, s') →
  stdout s' = stdout s ∧
  (∀ p n, fs s !! p = Some n → p ≠ output_path t →
          p ≠ output_path t +:+ ".part" → fs s' !! p = Some n) ∧
  (∀ p, fs s !! p = Some FDir → fs s' !! p = Some FDir) ∧
  (failures s' = failures s ∨
   ∃ reason, failures s' = failures s ++ [(region t, url t, reason)]) ∧
  (requests s' = requests s ∨ requests s' = requests s ++ [url t]).
Proof.
  destruct (os_makedirs (dirname (output_path t)) s) as [[[]|e] s1] eqn:Hmk.
  - destruct (os_makedirs_ok _ _ _ Hmk) as (_ & Hpres & _ & Hreq & Hfail & Hout).
    assert (Hs1 : ∀ s2, s2 = s1 →
      stdout s2 = stdout s ∧
      (∀ p n, fs s !! p = Some n → p ≠ output_path t →
              p ≠ output_path t +:+ ".part" → fs s2 !! p = Some n) ∧
      (∀ p, fs s !! p = Some FDir → fs s2 !! p = Some FDir) ∧
      (failures s2 = failures s ∨
       ∃ reason, failures s2 = failures s ++ [(region t, url t, reason)]) ∧
      (requests s2 = requests s ∨ requests s2 = requests s ++ [url t])).
    { intros s2 ->. repeat split; eauto. }
    destruct (remote_size_of ev (url t)) as [remote_size|e] eqn:Hp.
    + destruct (skip_rule_dec ev (fs s1) (output_path t) remote_size)
        as [Hs|Hn].
      * rewrite (download_task_skip ev t s s1 remote_size Hmk Hp Hs).
        intros [= _ <-]. by apply Hs1.
      * rewrite (download_task_fetch ev t s s1 remote_size Hmk Hp Hn). intros Hf.
        destruct (fetch_effects _ _ _ _ _ _ _ _ Hf) as (Ho & Hfr & Hd & Hfl & Hrq).
        split; [congruence|]. split; [|split; [|split]].
        -- intros p n Hn' H1 H2. rewrite Hfr by done. eauto.
        -- eauto.
        -- destruct Hfl as [->|(reason & -> & _)]; rewrite Hfail; eauto.
        -- destruct Hrq as [(-> & _)|[-> _]]; rewrite Hreq; eauto.
    + rewrite (download_task_probe_raise ev t s s1 e Hmk Hp).
      intros [= _ <-]. by apply Hs1.
  - rewrite (download_task_makedirs_raise ev t s s1 e Hmk).
    rewrite (os_makedirs_raise _ _ _ _ Hmk). intros [= _ <-]. repeat split; eauto.
Qed.

(** *** Tasks that are settled *)

(** A task is settled in a store when the worker would skip it there: the
    probe answers, the parent directory exists and the resumability rule
    holds at the destination. *)
Definition settled (ev : env) (t : task) (m : gmap string fnode) : Prop :=
  ∃ remote_size,
    remote_size_of ev (url t) = Ok remote_size ∧
    m !! dirname (output_path t) = Some FDir ∧
    skip_rule ev m (output_path t) remote_size.

(** A remote file of unknown size is not empty. *)
Definition nonempty_if_unknown (ev : env) (t : task) : Prop :=
  remote_size_of ev (url t) = Ok None →
  ∀ r, http_get ev (url t) = Ok r → resp_body r ≠ "".

(** The worker skips a settled task and changes nothing. *)
Lemma settled_skip (ev : env) (t : task) (s : state) :
  settled ev t (fs s) → download_task ev t s = (Ok (), s).
Proof.
  intros (remote_size & Hp & Hdir & Hskip).
  eapply download_task_skip; [by apply os_makedirs_existing|done..].
Qed.

Lemma length_pos (x : string) : x ≠ "" → Z.of_nat (String.length x) > 0.
Proof. destruct x; [done|]. cbn. lia. Qed.

(** A task that ends normally without recording a failure is settled. *)
Lemma download_task_settles (ev : env) (t : task) (s s' : state) :
  download_task ev t s = (Ok (), s') →
  failures s' = failures s →
  nonempty_if_unknown ev t →
  settled ev t (fs s').
Proof.
  intros Hd Hf Hne.
  destruct (os_makedirs (dirname (output_path t)) s) as [[[]|e] s1] eqn:Hmk.
  - destruct (os_makedirs_ok _ _ _ Hmk) as (Hdir & _ & _ & _ & Hfail & _).
    destruct (remote_size_of ev (url t)) as [remote_size|e] eqn:Hp.
    + destruct (skip_rule_dec ev (fs s1) (output_path t) remote_size) as [Hs|Hn].
      * rewrite (download_task_skip ev t s s1 remote_size Hmk Hp Hs) in Hd.
        injection Hd as <-. by exists remote_size.
      * rewrite (download_task_fetch ev t s s1 remote_size Hmk Hp Hn) in Hd.
        destruct (fetch_effects _ _ _ _ _ _ _ _ Hd) as (_ & _ & Hdirs & _).
        destruct (fetch_completes _ _ _ _ _ _ _ Hd) as (r & Hget & Hsize & Hout);
          [congruence|].
        exists remote_size. split; [done|]. split; [by apply Hdirs|].
        exists (FFile (resp_body r)). split; [done|].
        destruct remote_size as [expected|].
        -- right. exists expected. split; [done|]. cbn. symmetry. by apply Hsize.
        -- left. split; [done|]. cbn. apply length_pos. by eapply Hne.
    + by rewrite (download_task_probe_raise ev t s s1 e Hmk Hp) in Hd.
  - by rewrite (download_task_makedirs_raise ev t s s1 e Hmk) in Hd.
Qed.

(** Two tasks get along when they write the same destination only for
    the same URL, and the destination of the one is not the staging path
    of the other. *)
Definition get_along (t t' : task) : Prop :=
  (output_path t = output_path t' → url t = url t') ∧
  output_path t ≠ output_path t' +:+ ".part".

(** A settled task stays settled when another task, which gets along
    with it, ends normally without recording a failure. *)
Lemma settled_preserved (ev : env) (t t' : task) (s s' : state) :
  settled ev t (fs s) →
  download_task ev t' s = (Ok (), s') →
  failures s' = failures s →
  nonempty_if_unknown ev t' →
  get_along t t' →
  settled ev t (fs s').
Proof.
  intros (remote_size & Hp & Hdir & n & Hn & Hrule) Hd Hf Hne [Hurl Hpart].
  destruct (decide (output_path t = output_path t')) as [Heq|Hneq].
  - destruct (download_task_settles ev t' s s' Hd Hf Hne) as (rs' & Hp' & Hdir' & Hs').
    exists rs'. by rewrite Heq, (Hurl Heq).
  - destruct (download_task_effects _ _ _ _ _ Hd) as (_ & Hpres & Hdirs & _).
    exists remote_size. split; [done|]. split; [by apply Hdirs|].
    exists n. split; [by apply Hpres|done].
Qed.

(** *** The pool *)

Lemma run_tasks_cons (ev : env) (t : task) (rest : list task) (s : state) :
  run_tasks ev (t :: rest) s =
  match download_task ev t s with
  | (Ok _, s1) => run_tasks ev rest s1
  | (Raise e, s1) => (Raise e, (run_tasks ev rest s1).2)
  end.
Proof. reflexivity. Qed.

(** The pool only ever appends to the failures. *)
Lemma run_tasks_failures (ev : env) (tasks : list task) (s : state) :
  ∃ l, failures (run_tasks ev tasks s).2 = failures s ++ l.
Proof.
  revert s. induction tasks as [|t rest IH]; intros s.
  - exists []. cbn. by rewrite app_nil_r.
  - rewrite run_tasks_cons.
    destruct (download_task ev t s) as [res s1] eqn:Hd.
    destruct (download_task_effects _ _ _ _ _ Hd) as (_ & _ & _ & Hfl & _).
    destruct (IH s1) as [l Hl].
    assert (∃ l1, failures s1 = failures s ++ l1) as [l1 Hl1].
    { destruct Hfl as [->|[reason ->]]; [exists []; by rewrite app_nil_r|eauto]. }
    exists (l1 ++ l). destruct res; cbn; by rewrite Hl, Hl1, app_assoc.
Qed.

(** The pool skips tasks that are all settled, and changes nothing. *)
Lemma run_tasks_settled (ev : env) (tasks : list task) (s : state) :
  (∀ t, t ∈ tasks → settled ev t (fs s)) →
  run_tasks ev tasks s = (Ok (), s).
Proof.
  induction tasks as [|t rest IH]; intros Hall; [done|].
  rewrite run_tasks_cons, settled_skip by (apply Hall; left).
  apply IH. intros t' Ht'. apply Hall. by right.
Qed.

(** After a run of the pool that ends normally and records no failure,
    every task is settled. [done] are the tasks settled before. *)
Lemma run_tasks_settles (ev : env) (done tasks : list task) (s s1 : state) :
  run_tasks ev tasks s = (Ok (), s1) →
  failures s1 = failures s →
  (∀ t, t ∈ tasks → nonempty_if_unknown ev t) →
  (∀ t t', t ∈ done ++ tasks → t' ∈ tasks → get_along t t') →
  (∀ t, t ∈ done → settled ev t (fs s)) →
  ∀ t, t ∈ done ++ tasks → settled ev t (fs s1).
Proof.
  revert done s. induction tasks as [|t' rest IH]; intros done s Hrun Hf Hne Hal Hdone.
  - injection Hrun as <-. intros t. rewrite app_nil_r. apply Hdone.
  - rewrite run_tasks_cons in Hrun.
    destruct (download_task ev t' s) as [[[]|e] s'] eqn:Hd; [|done].
    destruct (download_task_effects _ _ _ _ _ Hd) as (_ & _ & _ & Hfl & _).
    destruct (run_tasks_failures ev rest s') as [l Hl]. rewrite Hrun in Hl. cbn in Hl.
    assert (Hf' : failures s' = failures s).
    { destruct Hfl as [?|[reason Hr]]; [done|].
      rewrite Hl, Hr, <- app_assoc in Hf.
      apply (f_equal length) in Hf. rewrite !length_app in Hf. cbn in Hf. lia. }
    intros t Ht. replace (done ++ t' :: rest) with ((done ++ [t']) ++ rest) in Ht
      by by rewrite <- app_assoc.
    apply (IH (done ++ [t']) s'); [done|congruence| | | |done].
    + intros t0 Ht0. apply Hne. by right.
    + intros t0 t1 Ht0 Ht1. apply Hal; [|by right]. by rewrite <- app_assoc in Ht0.
    + intros t0 Ht0. apply elem_of_app in Ht0 as [Ht0|Ht0].
      * apply (settled_preserved ev t0 t' s s'); [by apply Hdone|done..| |].
        -- apply Hne. left.
        -- apply Hal; [|left]. apply elem_of_app. by left.
      * apply list_elem_of_singleton in Ht0 as ->.
        apply (download_task_settles ev t' s s'); [done..|]. apply Hne. left.
Qed.

(** *** Two runs of [main] *)

Lemma gather_run (ev : env) (a : args) (src : node) (tasks : list task)
    (missing : list (string * string)) (s : state) :
  collect_tasks (source_root a) (output_root a) src = Ok (tasks, missing) →
  gather ev a src s =
  if bool_decide (threads a ≤ 0)
  then (Raise (Exn ValueError "max_workers must be greater than 0"),
        set_failures (λ _, []) s)
  else
    match run_tasks ev tasks (set_failures (λ _, []) s) with
    | (Ok _, sa) => (Ok (), set_failures (λ l, l ++ (missing_failure <$> missing)) sa)
    | (Raise e, sa) => (Raise e, sa)
    end.
Proof.
  intros Hc. unfold gather. rewrite bind_run. unfold lift. rewrite Hc.
  rewrite bind_run. unfold new_failures. rewrite bind_run. unfold executor.
  cbn [fst snd]. destruct (bool_decide (threads a ≤ 0)); [done|].
  destruct (run_tasks ev tasks _) as [[[]|e] sa]; [|done].
  destruct missing as [|m missing]; [|done]. cbn. f_equal.
  apply state_eq; try done. cbn. by rewrite app_nil_r.
Qed.

(** Writing a file elsewhere keeps a task settled. *)
Lemma settled_insert (ev : env) (t : task) (m : gmap string fnode)
    (path data : string) :
  settled ev t m → output_path t ≠ path → m !! path ≠ Some FDir →
  settled ev t (<[path := FFile data]> m).
Proof.
  intros (remote_size & Hp & Hdir & n & Hn & Hrule) Hne Hnd.
  exists remote_size. split; [done|]. split.
  - rewrite lookup_insert_ne; [done|]. intros Heq. rewrite Heq in Hnd. congruence.
  - exists n. by rewrite lookup_insert_ne.
Qed.

(** A file that could be opened for writing can be opened again. *)
Lemma open_w_again (path data : string) (s s' : state) :
  open_w path s = (Ok (), set_fs <[path := FFile ""]> s) →
  fs s' = <[path := FFile data]> (fs s) →
  open_w path s' = (Ok (), set_fs <[path := FFile ""]> s').
Proof.
  unfold open_w. intros Ho Hfs. rewrite Hfs, lookup_insert_eq.
  destruct (fs s !! path) as [[d|]|] eqn:Hp; [|done|];
    (destruct (is_empty (dirname path)); [done|];
     destruct (fs s !! dirname path) as [[d'|]|] eqn:Hpar; [done| |done];
     rewrite lookup_insert_ne; [by rewrite Hpar|]; intros Heq; congruence).
Qed.

(** C6, as the code has it. Let a first run of [main] end normally with
    no failure but the missing entries, where the remote files of unknown
    size are not empty, tasks that share a destination share their URL, no
    destination is the staging path of another task and none is the log
    file. Then a second run from the store the first one left, with the
    same manifests and the same remote answers, issues no GET request,
    records the same failures (the missing entries) and leaves the store
    as it is. *)
Theorem second_run_downloads_nothing (ev : env) (a : args) (src : node)
    (tasks : list task) (missing : list (string * string)) (s0 s1 : state) :
  collect_tasks (source_root a) (output_root a) src = Ok (tasks, missing) →
  (∀ t t', t ∈ tasks → t' ∈ tasks → get_along t t') →
  (∀ t, t ∈ tasks → nonempty_if_unknown ev t) →
  (∀ t, t ∈ tasks → output_path t ≠ log_file a) →
  main ev a src s0 = (Ok (), s1) →
  failures s1 = missing_failure <$> missing →
  ∃ s2, main ev a src s1 = (Ok (), s2) ∧
        requests s2 = requests s1 ∧
        failures s2 = failures s1 ∧
        fs s2 = fs s1.
Proof.
  intros Hc Hal Hne Hlog Hmain Hfail.
  rewrite main_gather, bind_run, (gather_run _ _ _ _ _ _ Hc) in Hmain.
  rewrite main_gather, bind_run, (gather_run _ _ _ _ _ _ Hc).
  destruct (bool_decide (threads a ≤ 0)); [done|].
  destruct (run_tasks ev tasks (set_failures (λ _, []) s0)) as [[[]|e] sa] eqn:Hrun;
    [|done].
  rewrite report_run in Hmain. cbn [failures set_failures] in Hmain.
  (* the first run recorded no failure of a download *)
  assert (Hfa : failures sa = []).
  { assert (failures s1 = failures sa ++ (missing_failure <$> missing)) as Hs1.
    { destruct (bool_decide _) in Hmain; [by injection Hmain as <-|].
      destruct (open_w_run (log_file a)
                  (set_failures (λ l, l ++ (missing_failure <$> missing)) sa))
        as [Ho|(e & Ho & _)]; rewrite Ho in Hmain; [|done].
      by injection Hmain as <-. }
    rewrite Hfail in Hs1. apply (f_equal length) in Hs1.
    rewrite length_app in Hs1. destruct (failures sa); [done|]. cbn in Hs1. lia. }
  assert (Hset : ∀ t, t ∈ tasks → settled ev t (fs sa)).
  { intros t Ht. apply (run_tasks_settles ev [] tasks _ sa Hrun); try done.
    intros t0 Ht0. by apply elem_of_nil in Ht0. }
  rewrite Hfa in Hmain. cbn [app] in Hmain.
  (* the store the first run leaves keeps every task settled *)
  assert (Hset1 : ∀ t, t ∈ tasks → settled ev t (fs s1)).
  { intros t Ht. destruct (bool_decide _) in Hmain; [injection Hmain as <-; by apply Hset|].
    destruct (open_w_run (log_file a)
                (set_failures (λ l, l ++ (missing_failure <$> missing)) sa))
      as [Ho|(e & Ho & _)]; rewrite Ho in Hmain; [|done].
    injection Hmain as <-. cbn. apply settled_insert; [by apply Hset|by apply Hlog|].
    unfold open_w in Ho. cbn in Ho. intros Hd. by rewrite Hd in Ho. }
  rewrite (run_tasks_settled ev tasks (set_failures (λ _, []) s1)) by done.
  rewrite report_run. cbn [failures set_failures app].
  destruct (bool_decide (missing_failure <$> missing = [])) eqn:Hm.
  - injection Hmain as <-. eexists. split; [reflexivity|]. cbn.
    apply bool_decide_eq_true_1 in Hm. by rewrite Hfa, Hm.
  - destruct (open_w_run (log_file a)
                (set_failures (λ l, l ++ (missing_failure <$> missing)) sa))
      as [Ho|(e & Ho & _)]; rewrite Ho in Hmain; [|done].
    injection Hmain as <-.
    rewrite (open_w_again (log_file a) (log_text (missing_failure <$> missing))
               (set_failures (λ l, l ++ (missing_failure <$> missing)) sa)); [|done|done].
    eexists. split; [reflexivity|]. cbn. rewrite Hfa. cbn.
    by rewrite insert_insert_eq.
Qed.

Lemma second_run_downloads_nothing_witness :
  ∃ s2, main five_bytes default_args two_tiles after_first_run = (Ok (), s2) ∧
        requests s2 = requests after_first_run ∧
        failures s2 = failures after_first_run ∧
        fs s2 = fs after_first_run.
Proof.
  assert (H := second_run_downloads_nothing five_bytes default_args
                 two_tiles
                 [Task "A" "http://h/x.tif" "dataset/train/dsm/A_x.tif"]
                 [("A", "y.tif")] (State ∅ [] [] []) after_first_run).
  apply H.
  - vm_compute. reflexivity.
  - intros t t' ->%list_elem_of_singleton ->%list_elem_of_singleton.
    split; [done|]. apply not_eq_sym, part_neq.
  - intros t ->%list_elem_of_singleton Hp. vm_compute in Hp. discriminate.
  - intros t ->%list_elem_of_singleton. vm_compute. discriminate.
  - vm_compute. reflexivity.
  - reflexivity.
Defined.

(** C6, as stated, fails for such a file: the first run downloads it and
    records no failure, the second run does not skip it (its local size is
    not positive) and downloads it again. *)
Lemma second_run_downloads_empty_file_again :
  main empty_unknown default_args one_tile (State ∅ [] [] [])
  = (Ok (),
     State (<["dataset/train/dsm/A_x.tif" := FFile ""]>
              (<["dataset/train/dsm" := FDir]>
                 (<["dataset/train" := FDir]> {["dataset" := FDir]})))
           ["http://h/x.tif"] [] ["Download completed without failures."]) ∧
  requests (main empty_unknown default_args one_tile
              (main empty_unknown default_args one_tile (State ∅ [] [] [])).2).2
  = ["http://h/x.tif"; "http://h/x.tif"].
Proof. split; vm_compute; reflexivity. Qed.

End RerunFacts.

(** * Further properties of the resolver *)

Module UrlMapFacts.
Import PyStr PosixPath PyStrFacts Resolver.

(** The URLs of a URL list: its lines without the white space around
    them, empty ones left out. *)
Definition urls (content : string) : list string :=
  filter (λ u, u ≠ "") (strip <$> text_lines content).

Lemma contains_cons (needle : string) (c : ascii) (r : string) :
  contains needle (String c r) = startswith needle (String c r) || contains needle r.
Proof. reflexivity. Qed.

(** What stands after the last separator holds no separator. *)
Lemma after_last_no_sep (sep : ascii) (s : string) :
  contains (String sep "") (after_last sep s) = false.
Proof.
  induction s as [|c r IH]; [done|]. cbn [after_last].
  destruct (contains (String sep "") r) eqn:Hr; [done|].
  destruct (Ascii.eqb_spec c sep) as [->|Hne]; [done|].
  rewrite contains_cons, Hr, orb_false_r. cbn [startswith].
  destruct (Ascii.eqb_spec sep c) as [->|_]; done.
Qed.

(** A string ends with what stands after its last separator. *)
Lemma after_last_suffix (sep : ascii) (s : string) :
  ∃ pre, s = pre +:+ after_last sep s.
Proof.
  induction s as [|c r [pre IH]]; [by exists ""|]. cbn [after_last].
  destruct (contains (String sep "") r).
  - exists (String c pre). by rewrite sapp_cons, <- IH.
  - destruct (Ascii.eqb c sep); [by exists (String c "")|by exists ""].
Qed.

(** The loop of [read_url_map] over lines, from a map [m]: a key is bound
    to the last URL of the lines that ends with it, and is as in [m] when
    there is none. *)
Lemma url_map_fold_lookup (lines : list string) (m : gmap string string) (k : string) :
  fold_left url_map_line lines m !! k =
  match last (filter (λ u, after_last "/" u = k)
                     (filter (λ u, u ≠ "") (strip <$> lines))) with
  | Some u => Some u
  | None => m !! k
  end.
Proof.
  revert m. induction lines as [|line lines IH]; intros m; [done|].
  cbn [fold_left fmap list_fmap]. rewrite IH. unfold url_map_line.
  destruct (decide (strip line = "")) as [He|Hne].
  - rewrite He. cbn [is_empty]. by rewrite filter_cons_False by (by intros ?).
  - rewrite (filter_cons_True (λ u, u ≠ "")) by done.
    destruct (strip line) as [|c r] eqn:Hs; [done|]. cbn [is_empty].
    destruct (decide (after_last "/" (String c r) = k)) as [Hk|Hk].
    + rewrite filter_cons_True by done. rewrite last_cons.
      destruct (last _); [done|]. by rewrite Hk, lookup_insert_eq.
    + rewrite filter_cons_False by done. destruct (last _); [done|].
      by rewrite lookup_insert_ne.
Qed.

(** X1. In the map [read_url_map] builds, a file name is bound to the last
    URL of the list whose last path segment is that name, and to nothing
    when no URL of the list ends with it: a later duplicate overwrites an
    earlier one. *)
Theorem read_url_map_last_wins (content k : string) :
  read_url_map content !! k = last (filter (λ u, after_last "/" u = k) (urls content)).
Proof.
  unfold read_url_map, urls. rewrite url_map_fold_lookup.
  destruct (last _); [done|]. apply lookup_empty.
Qed.

(** X2. Every entry of the map [read_url_map] builds binds the last path
    segment of a URL of the list to that URL: the key holds no slash, the
    URL is not empty and ends with the key. *)
Theorem read_url_map_entries (content k u : string) :
  read_url_map content !! k = Some u →
  u ∈ urls content ∧ u ≠ "" ∧ k = after_last "/" u ∧
  contains "/" k = false ∧ ∃ pre, u = pre +:+ k.
Proof.
  unfold read_url_map. rewrite url_map_fold_lookup, lookup_empty.
  fold (urls content).
  destruct (last _) as [u'|] eqn:Hl; [|done]. intros [= ->].
  apply last_Some_elem_of in Hl.
  apply list_elem_of_filter in Hl as [Hk Hu]. subst k.
  pose proof Hu as Hu'. apply list_elem_of_filter in Hu' as [Hne _].
  repeat split; [done..|apply after_last_no_sep|apply after_last_suffix].
Qed.

Lemma read_url_map_entries_witness :
  "http://h/b/t.tif" ∈ urls "http://h/a/t.tif
  http://h/b/t.tif  
" ∧ "http://h/b/t.tif" ≠ "" ∧ "t.tif" = after_last "/" "http://h/b/t.tif" ∧
  contains "/" "t.tif" = false ∧ ∃ pre, "http://h/b/t.tif" = pre +:+ "t.tif".
Proof.
  apply (read_url_map_entries "http://h/a/t.tif
  http://h/b/t.tif  
" "t.tif" "http://h/b/t.tif").
  vm_compute. reflexivity.
Defined.

End UrlMapFacts.

Module SplitMoreFacts.
Import PyStr PosixPath PyStrFacts Resolver ResolverFacts.

Lemma lower_char_idem (c : ascii) : lower_char (lower_char c) = lower_char c.
Proof. by destruct c as [[] [] [] [] [] [] [] []]. Qed.

Lemma lower_idem (s : string) : lower (lower s) = lower s.
Proof. induction s as [|c s IH]; [done|]. cbn. by rewrite lower_char_idem, IH. Qed.

(** X3. A split [split_from_manifest] answers is one of "train", "val" and
    "test" and occurs in the lowered file name; the answer depends on the
    lowered name only, so the case of the letters of the name does not
    matter. *)
Theorem split_from_manifest_sound (filename : string) :
  (∀ split, split_from_manifest filename = Some split →
            (split = "train" ∨ split = "val" ∨ split = "test") ∧
            substring split (lower filename)) ∧
  split_from_manifest (lower filename) = split_from_manifest filename ∧
  (∀ other, lower other = lower filename →
            split_from_manifest other = split_from_manifest filename).
Proof.
  split; [|split].
  - intros split. unfold split_from_manifest.
    destruct (contains "train" (lower filename)) eqn:H1;
      [intros [= <-]; split; [auto|by apply contains_spec]|].
    destruct (contains "val" (lower filename)) eqn:H2;
      [intros [= <-]; split; [auto|by apply contains_spec]|].
    destruct (contains "test" (lower filename)) eqn:H3;
      [intros [= <-]; split; [auto|by apply contains_spec]|done].
  - unfold split_from_manifest. by rewrite lower_idem.
  - intros other H. unfold split_from_manifest. by rewrite H.
Qed.

Lemma split_from_manifest_sound_witness :
  ("val" = "train" ∨ "val" = "val" ∨ "val" = "test") ∧
  substring "val" (lower "Region_VAL.txt").
Proof.
  destruct (split_from_manifest_sound "Region_VAL.txt") as (H & _).
  apply H. reflexivity.
Defined.

Lemma remove_char_app (x : ascii) (a b : string) :
  remove_char x (a +:+ b) = remove_char x a +:+ remove_char x b.
Proof.
  induction a as [|c a IH]; [done|]. rewrite sapp_cons. cbn [remove_char].
  destruct (Ascii.eqb c x); [done|]. by rewrite sapp_cons, IH.
Qed.

Lemma remove_char_gone (x : ascii) (s : string) :
  contains (String x "") (remove_char x s) = false.
Proof.
  induction s as [|c s IH]; [done|]. cbn [remove_char].
  destruct (Ascii.eqb_spec c x) as [->|Hne]; [done|].
  rewrite UrlMapFacts.contains_cons, IH, orb_false_r. cbn [startswith].
  destruct (Ascii.eqb_spec x c) as [->|_]; done.
Qed.

(** X4. The region prefix of a destination holds no dot, and the dots of
    a region name do not tell destinations apart: two regions that differ
    by a dot only are given the same destination for the same tile. *)
Theorem region_prefix_drops_dots (output_root split dtype r1 r2 tile : string) :
  contains "." (remove_char "." r1) = false ∧
  destination output_root split dtype (r1 +:+ "." +:+ r2) tile
  = destination output_root split dtype (r1 +:+ r2) tile.
Proof.
  split; [apply remove_char_gone|].
  unfold destination. by rewrite !remove_char_app.
Qed.

End SplitMoreFacts.

Module CollectFacts.
Import PyStr PosixPath PyStrFacts Resolver ResolverFacts.

(** *** Regions that contribute nothing *)

Lemma resolve_manifests_unclassified (output_root dtype region region_dir : string)
    (rn : node) (url_map : gmap string string) (names : list string) (a : acc) :
  (∀ name, name ∈ names → split_from_manifest name = None) →
  resolve_manifests output_root dtype region region_dir rn url_map names a = Ok a.
Proof.
  induction names as [|name names IH]; intros H; [done|].
  cbn [resolve_manifests]. rewrite (H name) by left.
  apply IH. intros n Hn. apply H. by right.
Qed.

(** X5. A region contributes neither task nor missing entry, and no
    error, when it is not a directory, when its directory lists no [.csv]
    entry (whatever its split files reference), and when it has a URL
    list but no entry ending in [.txt] whose name tells a split. *)
Theorem resolve_region_inert (output_root dtype base_dir region : string)
    (base : node) (a : acc) :
  ((∀ es, child base region ≠ Some (Dir es)) →
   resolve_region output_root dtype base_dir base a region = Ok a) ∧
  (∀ es, child base region = Some (Dir es) →
         filter (λ entry, endswith ".csv" (lower entry)) (listdir (Dir es)) = [] →
         resolve_region output_root dtype base_dir base a region = Ok a) ∧
  (∀ es csv others csv_content,
     child base region = Some (Dir es) →
     filter (λ entry, endswith ".csv" (lower entry)) (listdir (Dir es)) = csv :: others →
     child (Dir es) csv = Some (File csv_content) →
     (∀ name, name ∈ filter (λ entry, endswith ".txt" (lower entry)) (listdir (Dir es)) →
              split_from_manifest name = None) →
     resolve_region output_root dtype base_dir base a region = Ok a).
Proof.
  split; [|split].
  - intros H. unfold resolve_region.
    destruct (child base region) as [[c|es]|]; [done| |done]. by destruct (H es).
  - intros es Hc Hcsv. unfold resolve_region. by rewrite Hc, Hcsv.
  - intros es csv others csv_content Hc Hcsv Hfile Htxt.
    unfold resolve_region. rewrite Hc, Hcsv, Hfile. cbn [open_read].
    by apply resolve_manifests_unclassified.
Qed.

Lemma resolve_region_inert_witness :
  resolve_region "out" "dsm" "data/DSMs"
    (Dir [("A", Dir [("train.txt", File "x.tif"); ("notes.md", File "")])])
    ([], []) "A" = Ok ([], []).
Proof.
  destruct (resolve_region_inert "out" "dsm" "data/DSMs" "A"
    (Dir [("A", Dir [("train.txt", File "x.tif"); ("notes.md", File "")])])
    ([], [])) as (_ & H & _).
  eapply H; reflexivity.
Defined.

(** *** What every task looks like *)

(** A task as the resolver builds them: its destination is the one of the
    last path segment of its URL, for one of the three splits and one of
    the two types, and its URL is not empty. *)
Definition well_formed (output_root : string) (t : task) : Prop :=
  ∃ split dtype,
    (split = "train" ∨ split = "val" ∨ split = "test") ∧
    (dtype = "dsm" ∨ dtype = "dtm") ∧
    output_path t
    = destination output_root split dtype (region t) (after_last "/" (url t)) ∧
    url t ≠ "".

Definition acc_ok (output_root : string) (a : acc) : Prop :=
  Forall (well_formed output_root) a.1 ∧
  Forall (λ m : string * string, contains "," m.2 = false) a.2.

Lemma before_first_no_sep (sep : ascii) (s : string) :
  contains (String sep "") (before_first sep s) = false.
Proof.
  induction s as [|c r IH]; [done|]. cbn [before_first].
  destruct (Ascii.eqb_spec c sep) as [->|Hne]; [done|].
  rewrite UrlMapFacts.contains_cons, IH, orb_false_r. cbn [startswith].
  destruct (Ascii.eqb_spec sep c) as [->|_]; done.
Qed.

Lemma read_url_map_key (content k u : string) :
  read_url_map content !! k = Some u → k = after_last "/" u ∧ u ≠ "".
Proof.
  unfold read_url_map. rewrite UrlMapFacts.url_map_fold_lookup, lookup_empty.
  destruct (last _) as [u'|] eqn:Hl; [|done]. intros [= ->].
  apply last_Some_elem_of in Hl.
  apply list_elem_of_filter in Hl as [Hk Hu].
  by apply list_elem_of_filter in Hu as [Hne _].
Qed.

Section Invariant.
Variable output_root : string.
Variables dtype : string.
Hypothesis dtype_ok : dtype = "dsm" ∨ dtype = "dtm".

Lemma resolve_line_ok (region split : string) (url_map : gmap string string)
    (a : acc) (raw : string) :
  (split = "train" ∨ split = "val" ∨ split = "test") →
  (∀ k u, url_map !! k = Some u → k = after_last "/" u ∧ u ≠ "") →
  acc_ok output_root a →
  acc_ok output_root (resolve_line output_root dtype region split url_map a raw).
Proof.
  intros Hsplit Hmap [Ht Hm]. unfold resolve_line.
  destruct (is_empty (strip raw)); [done|].
  destruct (url_map !! before_first "," (strip raw)) as [u|] eqn:Hu.
  - split; [|done]. cbn [fst]. apply Forall_app. split; [done|].
    apply Forall_singleton. destruct (Hmap _ _ Hu) as [Hk Hne].
    exists split, dtype. cbn. unfold destination. by rewrite <- Hk.
  - split; [done|]. cbn [snd]. apply Forall_app. split; [done|].
    apply Forall_singleton. cbn. apply before_first_no_sep.
Qed.

Lemma resolve_manifests_ok (region region_dir : string) (rn : node)
    (url_map : gmap string string) (names : list string) (a a' : acc) :
  (∀ k u, url_map !! k = Some u → k = after_last "/" u ∧ u ≠ "") →
  acc_ok output_root a →
  resolve_manifests output_root dtype region region_dir rn url_map names a = Ok a' →
  acc_ok output_root a'.
Proof.
  intros Hmap. revert a. induction names as [|name names IH]; intros a Ha.
  - by intros [= <-].
  - cbn [resolve_manifests].
    destruct (split_from_manifest name) as [split|] eqn:Hs; [|by apply IH].
    destruct (open_read _ _) as [content|e]; [|done].
    apply IH. unfold resolve_manifest.
    assert (Hsplit : split = "train" ∨ split = "val" ∨ split = "test").
    { unfold split_from_manifest in Hs. repeat case_match; simplify_eq; auto. }
    generalize (text_lines content). intros raws. revert a Ha.
    induction raws as [|raw raws IHr]; intros a Ha; [done|].
    cbn [fold_left]. apply IHr. by apply resolve_line_ok.
Qed.

Lemma resolve_region_ok (base_dir : string) (base : node) (a a' : acc)
    (region : string) :
  acc_ok output_root a →
  resolve_region output_root dtype base_dir base a region = Ok a' →
  acc_ok output_root a'.
Proof.
  intros Ha. unfold resolve_region.
  destruct (child base region) as [[c|es]|]; [by intros [= <-]| |by intros [= <-]].
  destruct (filter _ _) as [|csv others]; [by intros [= <-]|].
  destruct (open_read _ _) as [content|e]; [|done].
  apply resolve_manifests_ok; [|done]. apply read_url_map_key.
Qed.

Lemma resolve_regions_ok (base_dir : string) (base : node) (regions : list string)
    (a a' : acc) :
  acc_ok output_root a →
  resolve_regions output_root dtype base_dir base regions a = Ok a' →
  acc_ok output_root a'.
Proof.
  revert a. induction regions as [|region regions IH]; intros a Ha.
  - by intros [= <-].
  - cbn [resolve_regions].
    destruct (resolve_region _ _ _ _ _ _) as [a1|e] eqn:Hr; [|done].
    apply IH. by eapply resolve_region_ok.
Qed.

End Invariant.

(** X6. Every task [collect_tasks] returns has a URL that is not empty and
    the destination [<output_root>/<split>/<type>/<prefix>_<name>], where
    the split is one of train, val and test, the type one of dsm and dtm,
    the prefix the region of the task without its dots and the name the
    last path segment of the URL; and no tile name of a missing entry holds
    a comma. *)
Theorem collect_tasks_well_formed (source_root output_root : string) (src : node)
    (tasks : list task) (missing : list (string * string)) :
  collect_tasks source_root output_root src = Ok (tasks, missing) →
  Forall (well_formed output_root) tasks ∧
  Forall (λ m : string * string, contains "," m.2 = false) missing.
Proof.
  assert (Htype : ∀ a a' folder dtype, dtype = "dsm" ∨ dtype = "dtm" →
    acc_ok output_root a →
    resolve_type source_root output_root src a folder dtype = Ok a' →
    acc_ok output_root a').
  { intros a a' folder dtype Hd Ha. unfold resolve_type.
    destruct (child src folder) as [[c|es]|]; [by intros [= <-]| |by intros [= <-]].
    by apply resolve_regions_ok. }
  unfold collect_tasks.
  destruct (resolve_type _ _ _ _ "DSMs" _) as [a1|e] eqn:H1; [|done].
  intros H2. change (acc_ok output_root (tasks, missing)).
  eapply Htype; [by right| |exact H2].
  eapply Htype; [by left| |exact H1]. by split.
Qed.

Lemma collect_tasks_well_formed_witness :
  Forall (well_formed "out")
         [Task "Alpha.1" "http://h/b/t1.tif" "out/val/dsm/Alpha1_t1.tif";
          Task "B" "http://h/x.tif" "out/test/dtm/B_x.tif"] ∧
  Forall (λ m : string * string, contains "," m.2 = false) [("B", "y.tif")].
Proof.
  apply (collect_tasks_well_formed "data" "out" ResolverTests.tree1).
  vm_compute. reflexivity.
Defined.

End CollectFacts.

Module ComposeFacts.
Import PyStr PosixPath PyStrFacts Resolver ResolverFacts.

(** The accumulators [a] with what [d] holds appended. *)
Definition app_acc (a d : acc) : acc := (a.1 ++ d.1, a.2 ++ d.2).

Definition extend (a : acc) (r : result acc) : result acc :=
  match r with
  | Ok d => Ok (app_acc a d)
  | Raise e => Raise e
  end.

Lemma app_acc_nil_l (d : acc) : app_acc ([], []) d = d.
Proof. by destruct d. Qed.

Lemma app_acc_assoc (a b c : acc) : app_acc (app_acc a b) c = app_acc a (app_acc b c).
Proof. unfold app_acc. cbn. by rewrite <- !app_assoc. Qed.

Lemma extend_nil_l (r : result acc) : extend ([], []) r = r.
Proof. destruct r; [|done]. cbn. by rewrite app_acc_nil_l. Qed.

Lemma extend_assoc (a b : acc) (r : result acc) :
  extend (app_acc a b) r = extend a (extend b r).
Proof. destruct r; [|done]. cbn. by rewrite app_acc_assoc. Qed.

Section Append.
Variables output_root dtype : string.

Lemma resolve_line_app (region split : string) (url_map : gmap string string)
    (a : acc) (raw : string) :
  resolve_line output_root dtype region split url_map a raw
  = app_acc a (resolve_line output_root dtype region split url_map ([], []) raw).
Proof.
  unfold resolve_line, app_acc. destruct (is_empty (strip raw)).
  - cbn. rewrite !app_nil_r. by destruct a.
  - destruct (url_map !! _); cbn; by rewrite app_nil_r.
Qed.

Lemma resolve_manifest_app (region split : string) (url_map : gmap string string)
    (a : acc) (content : string) :
  resolve_manifest output_root dtype region split url_map a content
  = app_acc a (resolve_manifest output_root dtype region split url_map ([], []) content).
Proof.
  unfold resolve_manifest. generalize (text_lines content). intros raws.
  revert a. induction raws as [|raw raws IH]; intros a.
  - cbn. unfold app_acc. cbn. rewrite !app_nil_r. by destruct a.
  - cbn [fold_left]. rewrite IH, resolve_line_app, app_acc_assoc. f_equal.
    symmetry. apply IH.
Qed.

Lemma resolve_manifests_app (region region_dir : string) (rn : node)
    (url_map : gmap string string) (names : list string) (a : acc) :
  resolve_manifests output_root dtype region region_dir rn url_map names a
  = extend a (resolve_manifests output_root dtype region region_dir rn url_map
                                names ([], [])).
Proof.
  revert a. induction names as [|name names IH]; intros a.
  - cbn. unfold app_acc. cbn. rewrite !app_nil_r. by destruct a.
  - cbn [resolve_manifests]. destruct (split_from_manifest name); [|apply IH].
    destruct (open_read _ _) as [content|e]; [|done].
    rewrite IH, resolve_manifest_app, extend_assoc. f_equal. symmetry. apply IH.
Qed.

Lemma resolve_region_app (base_dir : string) (base : node) (a : acc) (region : string) :
  resolve_region output_root dtype base_dir base a region
  = extend a (resolve_region output_root dtype base_dir base ([], []) region).
Proof.
  assert (Hid : Ok a = extend a (Ok ([], []))).
  { cbn. unfold app_acc. cbn. rewrite !app_nil_r. by destruct a. }
  unfold resolve_region.
  destruct (child base region) as [[c|es]|]; [done| |done].
  destruct (filter _ _) as [|csv others]; [done|].
  destruct (open_read _ _) as [content|e]; [|done].
  apply resolve_manifests_app.
Qed.

Lemma resolve_regions_app (base_dir : string) (base : node) (regions : list string)
    (a : acc) :
  resolve_regions output_root dtype base_dir base regions a
  = extend a (resolve_regions output_root dtype base_dir base regions ([], [])).
Proof.
  revert a. induction regions as [|region regions IH]; intros a.
  - cbn. unfold app_acc. cbn. rewrite !app_nil_r. by destruct a.
  - cbn [resolve_regions]. rewrite (resolve_region_app _ _ a).
    destruct (resolve_region output_root dtype base_dir base ([], []) region)
      as [d|e]; [|done].
    cbn [extend]. rewrite IH, extend_assoc. f_equal. symmetry. apply IH.
Qed.

End Append.

Lemma resolve_type_app (source_root output_root : string) (src : node) (a : acc)
    (folder_name dtype : string) :
  resolve_type source_root output_root src a folder_name dtype
  = extend a (resolve_type source_root output_root src ([], []) folder_name dtype).
Proof.
  assert (Hid : Ok a = extend a (Ok ([], []))).
  { cbn. unfold app_acc. cbn. rewrite !app_nil_r. by destruct a. }
  unfold resolve_type. destruct (child src folder_name) as [[c|es]|]; [done| |done].
  apply resolve_regions_app.
Qed.

(** X7. The two type roots are resolved independently of each other, and
    in this order: the tasks and the missing entries of [collect_tasks]
    are those of [DSMs] followed by those of [DTMs], each as resolved from
    empty lists, and an error of either is the error of the whole. *)
Theorem collect_tasks_dsm_then_dtm (source_root output_root : string) (src : node) :
  collect_tasks source_root output_root src =
  match resolve_type source_root output_root src ([], []) "DSMs" "dsm",
        resolve_type source_root output_root src ([], []) "DTMs" "dtm" with
  | Ok dsm, Ok dtm => Ok (dsm.1 ++ dtm.1, dsm.2 ++ dtm.2)
  | Ok _, Raise e => Raise e
  | Raise e, _ => Raise e
  end.
Proof.
  unfold collect_tasks.
  destruct (resolve_type source_root output_root src ([], []) "DSMs" "dsm")
    as [dsm|e]; [|done].
  rewrite resolve_type_app.
  by destruct (resolve_type source_root output_root src ([], []) "DTMs" "dtm").
Qed.

End ComposeFacts.

(** * Further properties of the worker *)

Module DownloadFacts.
Import PyStr PosixPath PyStrFacts Worker StoreFacts WorkerFacts Worlds.

(** X8. A download that goes through: when the task is not skipped, no
    directory stands at the staging path or at the destination, the GET
    request is answered, the body arrives whole and has the announced size
    when one is known, the worker returns normally, the destination holds
    exactly the body, the staging file is gone, one GET request was
    issued and no failure recorded. *)
Theorem download_succeeds (ev : env) (t : task) (s s1 : state)
    (remote_size : option Z) (r : response) :
  os_makedirs (dirname (output_path t)) s = (Ok (), s1) →
  remote_size_of ev (url t) = Ok remote_size →
  ¬ skip_rule ev (fs s1) (output_path t) remote_size →
  fs s1 !! (output_path t +:+ ".part") ≠ Some FDir →
  fs s1 !! output_path t ≠ Some FDir →
  http_get ev (url t) = Ok r →
  resp_fault r = None →
  (∀ expected, remote_size = Some expected →
               Z.of_nat (String.length (resp_body r)) = expected) →
  download_task ev t s =
  (Ok (), State (<[output_path t := FFile (resp_body r)]>
                   (delete (output_path t +:+ ".part") (fs s1)))
                (requests s ++ [url t]) (failures s) (stdout s)).
Proof.
  intros Hmk Hp Hn Hnd Hout Hget Hfault Hsize.
  destruct (os_makedirs_ok _ _ _ Hmk) as (_ & _ & _ & Hreq & Hfail & Hso).
  set (temp_path := output_path t +:+ ".part") in *.
  assert (Hne : output_path t ≠ temp_path) by apply not_eq_sym, part_neq.
  rewrite (download_task_fetch ev t s s1 remote_size Hmk Hp Hn), fetch_run.
  fold temp_path.
  assert (Ht : transfer ev (url t) (output_path t) temp_path remote_size
                 (set_fs (delete temp_path) s1)
               = (Ok (), State (<[output_path t := FFile (resp_body r)]>
                                  (delete temp_path (fs s1)))
                               (requests s ++ [url t]) (failures s) (stdout s))).
  { rewrite transfer_run, Hget. unfold temp_path.
    rewrite (WorkerClaims.open_w_staging _ _ _ _ Hmk Hnd), Hfault. cbv zeta.
    fold temp_path.
    assert (Hrep : os_replace temp_path (output_path t)
                     (staged (url t) temp_path r (set_fs (delete temp_path) s1))
                   = (Ok (), State (<[output_path t := FFile (resp_body r)]>
                                      (delete temp_path (fs s1)))
                                   (requests s ++ [url t]) (failures s) (stdout s))).
    { rewrite replace_staged. cbn [staged fs set_fs add_request].
      rewrite lookup_insert_ne, lookup_delete_ne by done.
      assert (Hst : (Ok (), set_fs (λ m, <[output_path t := FFile (resp_body r)]>
                                           (delete temp_path m))
                              (staged (url t) temp_path r (set_fs (delete temp_path) s1)))
                    = (Ok (), State (<[output_path t := FFile (resp_body r)]>
                                       (delete temp_path (fs s1)))
                                    (requests s ++ [url t]) (failures s) (stdout s))).
      { f_equal. apply state_eq; cbn; [|congruence..].
        by rewrite delete_insert_eq, delete_delete_eq. }
      destruct (fs s1 !! output_path t) as [[data|]|]; done. }
    destruct remote_size as [expected|]; [|done].
    by rewrite bool_decide_eq_false_2 by (intros Hx; by apply Hx, Hsize). }
  rewrite Ht. by destruct (fs s1 !! temp_path) as [[data|]|].
Qed.

Lemma download_succeeds_witness :
  download_task five_bytes tile_task stale_store =
  (Ok (), State (<["o/A_x.tif" := FFile "12345"]>
                   (delete "o/A_x.tif.part" (fs stale_store)))
                ["http://h/x.tif"] [] []).
Proof.
  assert (H := download_succeeds five_bytes tile_task stale_store stale_store
                 (Some 5) (Response "12345" None)).
  apply H.
  - vm_compute. reflexivity.
  - reflexivity.
  - intros (n & Hn & [[? _]|(r' & [= <-] & Hr)]); [done|].
    vm_compute in Hn. injection Hn as <-. vm_compute in Hr. discriminate.
  - vm_compute. discriminate.
  - vm_compute. discriminate.
  - reflexivity.
  - reflexivity.
  - by intros ? [= <-].
Defined.

End DownloadFacts.

Module OutcomeFacts.
Import PyStr PosixPath PyStrFacts Worker StoreFacts WorkerFacts Worlds RerunFacts.

(** X9. After a task that returns normally and records no failure, the
    probe had answered, the parent directory exists and something exists
    at the destination; when the remote size is known, what is at the
    destination has exactly that size. *)
Theorem completed_task_has_remote_size (ev : env) (t : task) (s s' : state) :
  download_task ev t s = (Ok (), s') →
  failures s' = failures s →
  ∃ remote_size n,
    remote_size_of ev (url t) = Ok remote_size ∧
    fs s' !! dirname (output_path t) = Some FDir ∧
    fs s' !! output_path t = Some n ∧
    (∀ expected, remote_size = Some expected → node_size ev n = expected).
Proof.
  intros Hd Hf.
  destruct (os_makedirs (dirname (output_path t)) s) as [[[]|e] s1] eqn:Hmk.
  - destruct (os_makedirs_ok _ _ _ Hmk) as (Hdir & _ & _ & _ & Hfail & _).
    destruct (remote_size_of ev (url t)) as [remote_size|e] eqn:Hp.
    + exists remote_size.
      destruct (skip_rule_dec ev (fs s1) (output_path t) remote_size) as [Hs|Hn].
      * rewrite (download_task_skip ev t s s1 remote_size Hmk Hp Hs) in Hd.
        injection Hd as <-. destruct Hs as (n & Hn & Hrule). exists n.
        repeat split; [done..|]. intros expected ->.
        destruct Hrule as [[? _]|(r & [= <-] & Hr)]; done.
      * rewrite (download_task_fetch ev t s s1 remote_size Hmk Hp Hn) in Hd.
        destruct (fetch_effects _ _ _ _ _ _ _ _ Hd) as (_ & _ & Hdirs & _).
        destruct (fetch_completes _ _ _ _ _ _ _ Hd) as (r & Hget & Hsize & Hout);
          [congruence|].
        exists (FFile (resp_body r)). repeat split; [by apply Hdirs|done|].
        intros expected He. cbn. by apply Hsize.
    + by rewrite (download_task_probe_raise ev t s s1 e Hmk Hp) in Hd.
  - by rewrite (download_task_makedirs_raise ev t s s1 e Hmk) in Hd.
Qed.

(** The store after the tile of [tile_task] was downloaded over an older
    file. *)
Definition downloaded_store : state :=
  State (<["o/A_x.tif" := FFile "12345"]> {["o" := FDir]}) ["http://h/x.tif"] [] [].

Lemma completed_task_has_remote_size_witness :
  ∃ remote_size n,
    remote_size_of five_bytes (url tile_task) = Ok remote_size ∧
    fs downloaded_store !! dirname (output_path tile_task) = Some FDir ∧
    fs downloaded_store !! output_path tile_task = Some n ∧
    (∀ expected, remote_size = Some expected → node_size five_bytes n = expected).
Proof.
  apply (completed_task_has_remote_size five_bytes tile_task stale_store
           downloaded_store).
  - vm_compute. reflexivity.
  - reflexivity.
Defined.

(** The guarded block that ends normally has renamed the staging file
    away. *)
Lemma transfer_ok_no_staging (ev : env) (url output_path temp_path : string)
    (remote_size : option Z) (s s' : state) :
  output_path ≠ temp_path →
  transfer ev url output_path temp_path remote_size s = (Ok (), s') →
  fs s' !! temp_path = None.
Proof.
  intros Hne. rewrite transfer_run. destruct (http_get ev url) as [r|e]; [|done].
  destruct (open_w_run temp_path (add_request url s)) as [->|(e & -> & _)]; [|done].
  destruct (resp_fault r); [done|]. cbv zeta.
  assert (Hrep : os_replace temp_path output_path (staged url temp_path r s) = (Ok (), s') →
                 fs s' !! temp_path = None).
  { rewrite replace_staged. repeat case_match; intros [= <-]; cbn;
      by rewrite lookup_insert_ne, lookup_delete_eq. }
  destruct remote_size; [|done]. by destruct (bool_decide _).
Qed.

(** X10. When the worker has issued the GET request and returns normally,
    nothing is left at the staging path, whether the download went through
    or was recorded as a failure. *)
Theorem no_staging_file_after_attempt (ev : env) (t : task) (s s' : state) :
  download_task ev t s = (Ok (), s') →
  requests s' ≠ requests s →
  fs s' !! (output_path t +:+ ".part") = None.
Proof.
  intros Hd Hr.
  assert (Hne : output_path t ≠ output_path t +:+ ".part") by apply not_eq_sym, part_neq.
  destruct (os_makedirs (dirname (output_path t)) s) as [[[]|e] s1] eqn:Hmk.
  - destruct (os_makedirs_ok _ _ _ Hmk) as (_ & _ & _ & Hreq & _).
    destruct (remote_size_of ev (url t)) as [remote_size|e] eqn:Hp.
    + destruct (skip_rule_dec ev (fs s1) (output_path t) remote_size) as [Hs|Hn].
      * rewrite (download_task_skip ev t s s1 remote_size Hmk Hp Hs) in Hd.
        injection Hd as <-. by destruct Hr.
      * rewrite (download_task_fetch ev t s s1 remote_size Hmk Hp Hn), fetch_run in Hd.
        assert (Hgo :
          match transfer ev (url t) (output_path t) (output_path t +:+ ".part")
                         remote_size
                         (set_fs (delete (output_path t +:+ ".part")) s1) with
          | (Ok _, s3) => (Ok (), s3)
          | (Raise e, s3) =>
              if isinstance e OSError
              then (Ok (), set_failures (λ l, l ++ [(region t, url t, exn_str e)])
                             (set_fs (delete (output_path t +:+ ".part")) s3))
              else (Raise e, s3)
          end = (Ok (), s') → fs s' !! (output_path t +:+ ".part") = None).
        { destruct (transfer _ _ _ _ _ _) as [[[]|e] s3] eqn:Ht.
          - intros [= <-]. by eapply transfer_ok_no_staging.
          - destruct (isinstance e OSError); [|done]. intros [= <-]. cbn.
            apply lookup_delete_eq. }
        destruct (fs s1 !! (output_path t +:+ ".part")) as [[data|]|]; [|done|];
          by apply Hgo.
    + by rewrite (download_task_probe_raise ev t s s1 e Hmk Hp) in Hd.
  - by rewrite (download_task_makedirs_raise ev t s s1 e Hmk) in Hd.
Qed.

(** A store with a staging file left by an interrupted run. *)
Definition interrupted_store : state :=
  State (<["o/A_x.tif.part" := FFile "12"]> {["o" := FDir]}) [] [] [].

Lemma no_staging_file_after_attempt_witness :
  fs downloaded_store !! (output_path tile_task +:+ ".part") = None.
Proof.
  apply (no_staging_file_after_attempt five_bytes tile_task interrupted_store).
  - vm_compute. reflexivity.
  - vm_compute. discriminate.
Defined.

(** X11. An exception of the transfer that is of none of the three classes
    of the handler leaves the worker: when the body breaks off with such
    an exception, no failure is recorded and the bytes received so far
    stay in the staging file. *)
Theorem foreign_exception_keeps_staging_file (ev : env) (t : task) (s s1 : state)
    (remote_size : option Z) (r : response) (e : exn) :
  os_makedirs (dirname (output_path t)) s = (Ok (), s1) →
  remote_size_of ev (url t) = Ok remote_size →
  ¬ skip_rule ev (fs s1) (output_path t) remote_size →
  fs s1 !! (output_path t +:+ ".part") ≠ Some FDir →
  http_get ev (url t) = Ok r →
  resp_fault r = Some e →
  caught_by [URLError; OSError; TimeoutError] e = false →
  download_task ev t s =
  (Raise e, State (<[output_path t +:+ ".part" := FFile (resp_body r)]> (fs s1))
                  (requests s ++ [url t]) (failures s) (stdout s)).
Proof.
  intros Hmk Hp Hn Hnd Hget Hfault Hc. rewrite handler_catches in Hc.
  destruct (os_makedirs_ok _ _ _ Hmk) as (_ & _ & _ & Hreq & Hfail & Hso).
  rewrite (download_task_fetch ev t s s1 remote_size Hmk Hp Hn), fetch_run.
  rewrite transfer_run, Hget, (WorkerClaims.open_w_staging _ _ _ _ Hmk Hnd), Hfault, Hc.
  assert (Hst : staged (url t) (output_path t +:+ ".part") r
                  (set_fs (delete (output_path t +:+ ".part")) s1)
                = State (<[output_path t +:+ ".part" := FFile (resp_body r)]> (fs s1))
                        (requests s ++ [url t]) (failures s) (stdout s)).
  { apply state_eq; cbn; [|congruence..]. by rewrite insert_delete_eq. }
  rewrite Hst. by destruct (fs s1 !! (output_path t +:+ ".part")) as [[data|]|].
Qed.

(** The connection closes after three of the five bytes announced:
    [http.client.IncompleteRead], which derives from [HTTPException]. *)
Definition incomplete_read : env :=
  Env (λ _, Ok (Some "5"))
      (λ _, Ok (Response "123"
                  (Some (Exn HTTPException
                             "IncompleteRead(3 bytes read, 2 more expected)"))))
      4096.

Lemma foreign_exception_keeps_staging_file_witness :
  download_task incomplete_read tile_task (State {["o" := FDir]} [] [] []) =
  (Raise (Exn HTTPException "IncompleteRead(3 bytes read, 2 more expected)"),
   State (<[output_path tile_task +:+ ".part" := FFile "123"]> {["o" := FDir]})
         ([] ++ [url tile_task]) [] []).
Proof.
  assert (H := foreign_exception_keeps_staging_file incomplete_read tile_task
                 (State {["o" := FDir]} [] [] []) (State {["o" := FDir]} [] [] [])
                 (Some 5) (Response "123"
                  (Some (Exn HTTPException
                             "IncompleteRead(3 bytes read, 2 more expected)")))
                 (Exn HTTPException "IncompleteRead(3 bytes read, 2 more expected)")).
  apply H.
  - vm_compute. reflexivity.
  - reflexivity.
  - intros (n & Hn & _). vm_compute in Hn. discriminate.
  - vm_compute. discriminate.
  - reflexivity.
  - reflexivity.
  - reflexivity.
Defined.

(** X12. A task that returned normally without recording a failure is
    skipped when it is run again on the store it left, and changes nothing
    then, provided the remote file is not empty when its size is
    unknown. *)
Theorem task_twice_is_task_once (ev : env) (t : task) (s s' : state) :
  download_task ev t s = (Ok (), s') →
  failures s' = failures s →
  nonempty_if_unknown ev t →
  download_task ev t s' = (Ok (), s').
Proof.
  intros Hd Hf Hne. apply settled_skip. by eapply download_task_settles.
Qed.

Lemma task_twice_is_task_once_witness :
  download_task five_bytes tile_task downloaded_store = (Ok (), downloaded_store).
Proof.
  apply (task_twice_is_task_once five_bytes tile_task stale_store).
  - vm_compute. reflexivity.
  - reflexivity.
  - intros Hp. vm_compute in Hp. discriminate.
Defined.

End OutcomeFacts.

(** * Further properties of the orchestrator *)

Module RunFacts.
Import PyStr PosixPath PyStrFacts Orchestrator StoreFacts WorkerFacts ReportFacts
       Worlds RerunFacts.

(** Region and identifier of a failure record. *)
Definition failure_key (f : failure) : string * string := (f.1.1, f.1.2).

(** Region and URL of a task. *)
Definition task_key (t : task) : string * string := (region t, url t).

(** What the pool adds to the state: at most one GET request and at most
    one failure per task, in the order of the tasks. *)
Lemma run_tasks_trace (ev : env) (tasks : list task) (s s' : state) (res : result ()) :
  run_tasks ev tasks s = (res, s') →
  ∃ l rq, failures s' = failures s ++ l ∧
          requests s' = requests s ++ rq ∧
          failure_key <$> l `sublist_of` task_key <$> tasks ∧
          rq `sublist_of` url <$> tasks ∧
          stdout s' = stdout s.
Proof.
  revert s s' res. induction tasks as [|t rest IH]; intros s s' res.
  - intros [= _ <-]. exists [], []. by rewrite !app_nil_r.
  - rewrite run_tasks_cons.
    destruct (download_task ev t s) as [r1 s1] eqn:Hd.
    destruct (download_task_effects _ _ _ _ _ Hd) as (Ho & _ & _ & Hfl & Hrq).
    destruct (run_tasks ev rest s1) as [r2 s2] eqn:Hrun.
    destruct (IH _ _ _ Hrun) as (l & rq & Hl & Hr & Hsl & Hsr & Hso).
    assert (∃ l1, failures s1 = failures s ++ l1 ∧
                  failure_key <$> l1 `sublist_of` [task_key t]) as (l1 & Hl1 & Hs1).
    { destruct Hfl as [->|[reason ->]].
      - exists []. rewrite app_nil_r. split; [done|apply sublist_nil_l].
      - eexists. split; [done|]. cbn. reflexivity. }
    assert (∃ rq1, requests s1 = requests s ++ rq1 ∧
                   rq1 `sublist_of` [url t]) as (rq1 & Hr1 & Hq1).
    { destruct Hrq as [->| ->].
      - exists []. rewrite app_nil_r. split; [done|apply sublist_nil_l].
      - eexists. split; [done|]. reflexivity. }
    intros Hres. assert (s' = s2) as -> by (destruct r1; by injection Hres).
    exists (l1 ++ l), (rq1 ++ rq).
    rewrite Hl, Hl1, Hr, Hr1, Hso, Ho, <- !app_assoc, fmap_app.
    repeat split; try done.
    + by apply (sublist_app _ [_]).
    + by apply (sublist_app _ [_]).
Qed.

(** X13. When [main] returns normally, the failures it has collected are
    those of the workers followed by one [MISSING_URL] entry, with reason
    [not found], for each missing tile in the order of resolution. The
    workers have recorded at most one failure per task, under the region
    and the URL of the task and in the order of the tasks, and have issued
    at most one GET request per task: no task is tried twice. *)
Theorem main_failures_and_requests (ev : env) (a : args) (src : node)
    (tasks : list task) (missing : list (string * string)) (s s' : state) :
  collect_tasks (source_root a) (output_root a) src = Ok (tasks, missing) →
  main ev a src s = (Ok (), s') →
  ∃ l rq,
    failures s' = l ++ (missing_failure <$> missing) ∧
    failure_key <$> l `sublist_of` task_key <$> tasks ∧
    requests s' = requests s ++ rq ∧
    rq `sublist_of` url <$> tasks.
Proof.
  intros Hc. rewrite main_gather, bind_run, (gather_run _ _ _ _ _ _ Hc).
  destruct (bool_decide (threads a ≤ 0)); [done|].
  destruct (run_tasks ev tasks (set_failures (λ _, []) s)) as [[[]|e] sa] eqn:Hrun;
    [|done].
  destruct (run_tasks_trace _ _ _ _ _ Hrun) as (l & rq & Hl & Hr & Hsl & Hsr & _).
  cbn in Hl, Hr. rewrite report_run. cbn [failures set_failures].
  intros H. exists l, rq.
  assert (failures s' = failures sa ++ (missing_failure <$> missing) ∧
          requests s' = requests sa) as [-> ->].
  { destruct (bool_decide _) in H; [by injection H as <-|].
    destruct (open_w_run (log_file a)
                (set_failures (λ l, l ++ (missing_failure <$> missing)) sa))
      as [Ho|(e & Ho & _)]; rewrite Ho in H; [|done].
    by injection H as <-. }
  by rewrite Hl, Hr.
Qed.

Lemma main_failures_and_requests_witness :
  ∃ l rq,
    failures after_first_run = l ++ (missing_failure <$> [("A", "y.tif")]) ∧
    failure_key <$> l
      `sublist_of` task_key <$> [Task "A" "http://h/x.tif" "dataset/train/dsm/A_x.tif"] ∧
    requests after_first_run = requests (State ∅ [] [] []) ++ rq ∧
    rq `sublist_of` url <$> [Task "A" "http://h/x.tif" "dataset/train/dsm/A_x.tif"].
Proof.
  apply (main_failures_and_requests five_bytes default_args two_tiles
           [Task "A" "http://h/x.tif" "dataset/train/dsm/A_x.tif"]
           [("A", "y.tif")] (State ∅ [] [] []) after_first_run).
  - vm_compute. reflexivity.
  - vm_compute. reflexivity.
Defined.





End RunFacts.

Module LogFacts.
Import PyStr PosixPath PyStrFacts Orchestrator StoreFacts ReportFacts Worlds.

(** No line end (LF or CR) occurs in [s]. *)
Fixpoint no_eol (s : string) : bool :=
  match s with
  | "" => true
  | String c r => negb (Ascii.eqb c nl) && negb (Ascii.eqb c cr) && no_eol r
  end.

Lemma no_eol_app (a b : string) : no_eol (a +:+ b) = no_eol a && no_eol b.
Proof.
  induction a as [|c a IH]; [done|]. rewrite sapp_cons. cbn [no_eol].
  by rewrite IH, andb_assoc.
Qed.

(** Reading on from a text that starts with a line without inner line
    end: the line comes out whole. *)
Lemma text_lines_go_line (cur b rest : string) :
  no_eol b = true →
  text_lines_go cur (b +:+ String nl rest)
  = (String.rev cur +:+ b +:+ String nl "") :: text_lines_go "" rest.
Proof.
  revert cur. induction b as [|c b IH]; intros cur Hb.
  - rewrite sapp_nil_l. cbn [text_lines_go].
    replace (Ascii.eqb nl nl) with true by done. by rewrite rev_cons.
  - cbn [no_eol] in Hb. apply andb_true_iff in Hb as [Hc Hb].
    apply andb_true_iff in Hc as [Hn Hr].
    rewrite sapp_cons. cbn [text_lines_go].
    destruct (Ascii.eqb c nl); [done|]. destruct (Ascii.eqb c cr); [done|].
    rewrite IH by done. by rewrite rev_cons, sapp_assoc.
Qed.

Lemma before_first_app (sep : ascii) (a r : string) :
  contains (String sep "") a = false →
  before_first sep (a +:+ String sep r) = a.
Proof.
  induction a as [|c a IH]; intros Ha.
  - rewrite sapp_nil_l. cbn. by rewrite Ascii.eqb_refl.
  - rewrite UrlMapFacts.contains_cons in Ha. apply orb_false_iff in Ha as [Hs Ha].
    rewrite sapp_cons. cbn [before_first]. cbn [startswith] in Hs.
    destruct (Ascii.eqb_spec c sep) as [->|_].
    + by rewrite Ascii.eqb_refl in Hs.
    + by rewrite IH.
Qed.

(** X15. The log can be read back: when no field of a failure holds a
    line end, iterating over the text of the log gives exactly one line
    per failure, in order, each the record written for it; and the text
    before the first TAB of a record is the region, when the region holds
    no TAB. *)
Theorem log_reads_back (l : list failure) :
  Forall (λ f : failure, no_eol f.1.1 = true ∧ no_eol f.1.2 = true ∧ no_eol f.2 = true) l →
  text_lines (log_text l) = log_line <$> l ∧
  length (text_lines (log_text l)) = length l ∧
  ∀ f, f ∈ l → contains (String tab "") f.1.1 = false →
       before_first tab (log_line f) = f.1.1.
Proof.
  intros Hl.
  assert (Hlines : text_lines (log_text l) = log_line <$> l).
  { unfold text_lines. induction Hl as [|f l (Hr & Hu & Hm) _ IH]; [done|].
    unfold log_text. cbn [fmap list_fmap concat_s foldr].
    fold (concat_s (log_line <$> l)). fold (log_text l).
    assert (Hline : log_line f
                    = (f.1.1 +:+ String tab (f.1.2 +:+ String tab f.2)) +:+ String nl "").
    { unfold log_line. by rewrite !sapp_assoc, !sapp_cons, !sapp_assoc. }
    rewrite Hline at 1. rewrite sapp_assoc, sapp_cons, sapp_nil_l.
    rewrite text_lines_go_line.
    - rewrite IH. cbn. by rewrite Hline.
    - rewrite no_eol_app. cbn [no_eol]. rewrite no_eol_app. cbn [no_eol].
      by rewrite Hr, Hu, Hm. }
  split; [done|]. split; [by rewrite Hlines, length_fmap|].
  intros f _ Htab. unfold log_line. by apply before_first_app.
Qed.

Lemma log_reads_back_witness :
  text_lines (log_text [("A", "http://h/x.tif", "timed out");
                        ("A", "MISSING_URL:y.tif", "not found")])
  = log_line <$> [("A", "http://h/x.tif", "timed out");
                  ("A", "MISSING_URL:y.tif", "not found")] ∧
  length (text_lines (log_text [("A", "http://h/x.tif", "timed out");
                                ("A", "MISSING_URL:y.tif", "not found")]))
  = length [("A", "http://h/x.tif", "timed out");
            ("A", "MISSING_URL:y.tif", "not found")] ∧
  ∀ f, f ∈ [("A", "http://h/x.tif", "timed out");
            ("A", "MISSING_URL:y.tif", "not found")] →
       contains (String tab "") f.1.1 = false →
       before_first tab (log_line f) = f.1.1.
Proof.
  apply (log_reads_back [("A", "http://h/x.tif", "timed out");
                         ("A", "MISSING_URL:y.tif", "not found")]).
  repeat constructor.
Defined.

End LogFacts.

Module ProbeFacts.
Import PyStr PosixPath PyStrFacts Worker StoreFacts WorkerFacts Worlds.

(** X16. The probe (lines 121-143) changes nothing in the state. It
    answers a size exactly when the response has a [Content-Length] header
    that [int] accepts; it answers "unknown" exactly when the header is
    absent, when [int] refuses it, or when the request raises [URLError]
    or a subclass; it raises exactly when the request raises an exception
    of another class, and then that exception. *)
Theorem probe_outcomes (ev : env) (url : string) (s s' : state)
    (res : result (option Z)) :
  probe ev url s = (res, s') →
  s' = s ∧
  (∀ n, res = Ok (Some n) ↔
        ∃ l, http_head ev url = Ok (Some l) ∧ int_of_str l = Some n) ∧
  (res = Ok None ↔
     http_head ev url = Ok None ∨
     (∃ l, http_head ev url = Ok (Some l) ∧ int_of_str l = None) ∨
     (∃ e, http_head ev url = Raise e ∧ isinstance e URLError = true)) ∧
  (∀ e, res = Raise e ↔
        http_head ev url = Raise e ∧ isinstance e URLError = false).
Proof.
  rewrite probe_run. intros [= <- <-]. split; [done|].
  unfold remote_size_of.
  destruct (http_head ev url) as [[l|]|e0] eqn:Hh.
  - destruct (int_of_str l) as [n0|] eqn:Hi; (split; [|split]).
    + intros n. split; [intros [= <-]; eauto|]. intros (l' & [= <-] & ?). congruence.
    + split; [done|]. intros [?|[(l' & [= <-] & ?)|(e & ? & _)]]; congruence.
    + intros e. split; [done|]. by intros [? _].
    + intros n. split; [done|]. intros (l' & [= <-] & ?). congruence.
    + split; [|done]. intros _. right. left. eauto.
    + intros e. split; [done|]. by intros [? _].
  - split; [|split].
    + intros n. split; [done|]. by intros (l' & ? & _).
    + split; [by left|done].
    + intros e. split; [done|]. by intros [? _].
  - destruct (isinstance e0 URLError) eqn:He; (split; [|split]).
    + intros n. split; [done|]. by intros (l' & ? & _).
    + split; [|done]. intros _. right. right. eauto.
    + intros e. split; [done|]. intros [[= <-] ?]. congruence.
    + intros n. split; [done|]. by intros (l' & ? & _).
    + split; [done|]. intros [?|[(l' & ? & _)|(e & [= <-] & ?)]]; congruence.
    + intros e. split; [by intros [= <-]|]. by intros [[= <-] _].
Qed.

(** A server that answers a HEAD request with a header that is no
    number. *)
Definition odd_header : env :=
  Env (λ _, Ok (Some "12 bytes")) (λ _, Ok (Response "123456789012" None)) 4096.

Lemma probe_outcomes_witness :
  Ok None = Ok (@None Z) ↔
  http_head odd_header "http://h/x.tif" = Ok None ∨
  (∃ l, http_head odd_header "http://h/x.tif" = Ok (Some l) ∧ int_of_str l = None) ∨
  (∃ e, http_head odd_header "http://h/x.tif" = Raise e ∧ isinstance e URLError = true).
Proof.
  destruct (probe_outcomes odd_header "http://h/x.tif" (State ∅ [] [] [])
              (State ∅ [] [] []) (Ok None)) as (_ & _ & H & _).
  - vm_compute. reflexivity.
  - exact H.
Defined.

End ProbeFacts.

Module SummaryFacts.
Import PyStr PosixPath PyStrFacts Orchestrator StoreFacts WorkerFacts ReportFacts
       Worlds RerunFacts.

(** X17. A run of [main] that returns normally has printed exactly one
    line: [Download completed without failures.] when it collected no
    failure, and otherwise the line that gives the number of failures
    collected, which is the number of records in the log it has written,
    and the path of the log. *)
Theorem main_prints_one_summary (ev : env) (a : args) (src : node) (s s' : state) :
  main ev a src s = (Ok (), s') →
  (failures s' = [] ∧
   stdout s' = stdout s ++ ["Download completed without failures."]) ∨
  (failures s' ≠ [] ∧
   stdout s' = stdout s ++
     ["Finished with " +:+ str_of_Z (Z.of_nat (length (failures s')))
      +:+ " failures. See " +:+ log_file a +:+ "."] ∧
   fs s' !! log_file a = Some (FFile (log_text (failures s')))).
Proof.
  rewrite main_gather, bind_run.
  destruct (gather ev a src s) as [[[]|e] sg] eqn:Hg; [|done].
  assert (Hso : stdout sg = stdout s).
  { unfold gather in Hg. rewrite bind_run in Hg. unfold lift in Hg.
    destruct (collect_tasks _ _ _) as [collected|e]; [|done].
    rewrite bind_run in Hg. unfold new_failures in Hg. rewrite bind_run in Hg.
    unfold executor in Hg. destruct (bool_decide (threads a ≤ 0)); [done|].
    destruct (run_tasks ev collected.1 _) as [r1 s1] eqn:Hrun.
    destruct (RunFacts.run_tasks_trace _ _ _ _ _ Hrun) as (_ & _ & _ & _ & _ & _ & Ho).
    destruct r1 as [[]|e]; [|done].
    cbn in Ho. destruct (negb _); injection Hg as <-; cbn; by rewrite Ho. }
  rewrite report_run. destruct (decide (failures sg = [])) as [He|Hne].
  - rewrite bool_decide_eq_true_2 by done. intros [= <-]. left. cbn.
    by rewrite Hso.
  - rewrite bool_decide_eq_false_2 by done.
    destruct (open_w_run (log_file a) sg) as [Ho|(e & Ho & _)]; rewrite Ho; [|done].
    intros [= <-]. right. cbn. rewrite Hso, lookup_insert_eq. done.
Qed.

Lemma main_prints_one_summary_witness :
  (failures after_first_run = [] ∧
   stdout after_first_run
   = stdout (State ∅ [] [] []) ++ ["Download completed without failures."]) ∨
  (failures after_first_run ≠ [] ∧
   stdout after_first_run = stdout (State ∅ [] [] []) ++
     ["Finished with " +:+ str_of_Z (Z.of_nat (length (failures after_first_run)))
      +:+ " failures. See " +:+ log_file default_args +:+ "."] ∧
   fs after_first_run !! log_file default_args
   = Some (FFile (log_text (failures after_first_run)))).
Proof.
  apply (main_prints_one_summary five_bytes default_args two_tiles (State ∅ [] [] [])
           after_first_run).
  vm_compute. reflexivity.
Defined.

End SummaryFacts.

Module AtomicFacts.
Import PyStr PosixPath PyStrFacts Worker StoreFacts WorkerFacts Worlds.




End AtomicFacts.
